(** * The marshaling engine of lib/serializer.ts

    A shallow embedding of [Serializer.serialize], [Serializer.deserialize],
    [Serializer.validateConstraints] and the helpers they call, followed by
    the properties of the engine that the specification states.

    Modelling conventions.
    - A JavaScript value is a tree ([jsval]).  Distinct positions of a tree
      are distinct objects: inputs hold no aliasing, so [===] on two arrays or
      objects holds only between a position and itself.
    - Numbers are the integral ones plus NaN ([number]); fractions and
      infinities are outside the model, and every conversion from text to a
      number belongs to the host ([Host]).
    - Strings are sequences of 8-bit code units.  A type name is matched
      against ASCII patterns without regard to case, which is the ASCII
      folding ([toLowerCase]); [String.prototype.toLowerCase] itself belongs
      to the host.
    - Objects hold own, enumerable, string-keyed properties in insertion
      order; members inherited from a prototype are outside the model, and
      the keys of a plain object are taken not to be array indices (which
      JavaScript would enumerate first).
    - The payload under construction is a tree as well: a write through a
      reference that [serialize] shares with its input is seen in the payload
      only.  Where a run would write a property on a value that is no plain
      object the outcome is [OutOfModel], about which nothing is claimed.
    - A thrown exception is the [Err] outcome of [result]; the text of an
      [Error] is kept as the parts of its template literal. *)

From Stdlib Require Import String Ascii List ZArith Bool Lia DecimalString.
From Stdlib.Strings Require Import Byte.
Import ListNotations.
Local Open Scope string_scope.
Local Open Scope Z_scope.
Set Warnings "-register-all".

(** ** Strings *)

Definition dquote : ascii := Eval cbv in ascii_of_nat 34.
Definition backslash : ascii := Eval cbv in ascii_of_nat 92.
Definition dq : string := String dquote EmptyString.

Definition lowerAscii (c : ascii) : ascii :=
  let n := nat_of_ascii c in
  if (Nat.leb 65 n && Nat.leb n 90)%bool then ascii_of_nat (n + 32) else c.

Fixpoint toLowerCase (s : string) : string :=
  match s with
  | EmptyString => EmptyString
  | String c r => String (lowerAscii c) (toLowerCase r)
  end.

(** [name.match(/^(A|B|...)$/ig) !== null]: the name equals one of the
    alternatives up to ASCII case. *)
Definition matchesType (alternatives : list string) (name : string) : bool :=
  existsb (fun a => String.eqb (toLowerCase a) (toLowerCase name)) alternatives.

(** [s.split(sep)] for a one-character separator. *)
Fixpoint splitOn (sep : ascii) (s : string) : list string :=
  match s with
  | EmptyString => [EmptyString]
  | String c r =>
      if Ascii.eqb c sep then EmptyString :: splitOn sep r
      else match splitOn sep r with
           | h :: t => String c h :: t
           | [] => [String c EmptyString]
           end
  end.

Fixpoint lastChar (s : string) : option ascii :=
  match s with
  | EmptyString => None
  | String c EmptyString => Some c
  | String _ r => lastChar r
  end.

Fixpoint dropLastChar (s : string) : string :=
  match s with
  | EmptyString => EmptyString
  | String _ EmptyString => EmptyString
  | String c r => String c (dropLastChar r)
  end.

Definition endsWith (ch : ascii) (s : string) : bool :=
  match lastChar s with
  | Some c => Ascii.eqb c ch
  | None => false
  end.

Fixpoint replaceAll (from to : ascii) (s : string) : string :=
  match s with
  | EmptyString => EmptyString
  | String c r => String (if Ascii.eqb c from then to else c) (replaceAll from to r)
  end.

Fixpoint startsWith (prefix s : string) : bool :=
  match prefix, s with
  | EmptyString, _ => true
  | String a p, String b r => (Ascii.eqb a b && startsWith p r)%bool
  | String _ _, EmptyString => false
  end.

Fixpoint substringFrom (n : nat) (s : string) : string :=
  match n, s with
  | O, _ => s
  | S m, String _ r => substringFrom m r
  | S _, EmptyString => EmptyString
  end.

Fixpoint joinWith (sep : string) (l : list string) : string :=
  match l with
  | [] => EmptyString
  | [x] => x
  | x :: r => x ++ sep ++ joinWith sep r
  end.

Definition isDigit (c : ascii) : bool :=
  let n := nat_of_ascii c in (Nat.leb 48 n && Nat.leb n 57)%bool.

Definition stringOfZ (z : Z) : string := NilZero.string_of_int (Z.to_int z).
Definition stringOfNat (n : nat) : string := stringOfZ (Z.of_nat n).

Fixpoint digitsValue (acc : nat) (s : string) : nat :=
  match s with
  | EmptyString => acc
  | String c r => digitsValue (10 * acc + (nat_of_ascii c - 48))%nat r
  end.

Fixpoint allDigits (s : string) : bool :=
  match s with
  | EmptyString => true
  | String c r => (isDigit c && allDigits r)%bool
  end.

(** A property key that is a canonical array index: [0], or digits that do
    not start with [0]. *)
Definition parseIndex (key : string) : option nat :=
  match key with
  | EmptyString => None
  | String c r =>
      if (allDigits key && (negb (Ascii.eqb c "0"%char) || String.eqb r EmptyString))%bool
      then Some (digitsValue 0 key) else None
  end.

(** ** Numbers *)

Inductive number : Type :=
| NaN
| Fin (z : Z).

Definition num_lt (a b : number) : bool :=
  match a, b with Fin x, Fin y => x <? y | _, _ => false end.
Definition num_le (a b : number) : bool :=
  match a, b with Fin x, Fin y => x <=? y | _, _ => false end.
Definition num_gt (a b : number) : bool := num_lt b a.
Definition num_ge (a b : number) : bool := num_le b a.
Definition num_eq (a b : number) : bool :=
  match a, b with Fin x, Fin y => x =? y | _, _ => false end.

(** [a % b]: the sign follows the dividend; a zero divisor gives NaN. *)
Definition num_rem (a b : number) : number :=
  match a, b with
  | Fin x, Fin y => if y =? 0 then NaN else Fin (Z.rem x y)
  | _, _ => NaN
  end.

Definition num_mul (a b : number) : number :=
  match a, b with Fin x, Fin y => Fin (x * y) | _, _ => NaN end.

Definition isNaN (n : number) : bool :=
  match n with NaN => true | Fin _ => false end.

(** ** Values *)

Inductive jsval : Type :=
| VUndefined
| VNull
| VBool (b : bool)
| VNum (n : number)
| VStr (s : string)
| VArr (items : list jsval)
| VObj (fields : list (string * jsval))
| VBytes (bytes : list byte)      (* a Uint8Array *)
| VDate (time : number).          (* a Date; NaN is the invalid date *)

(** [v == undefined] *)
Definition isNullish (v : jsval) : bool :=
  match v with VUndefined | VNull => true | _ => false end.

(** [v === undefined] *)
Definition isUndefined (v : jsval) : bool :=
  match v with VUndefined => true | _ => false end.

Definition isNull (v : jsval) : bool :=
  match v with VNull => true | _ => false end.

(** ToBoolean *)
Definition truthy (v : jsval) : bool :=
  match v with
  | VUndefined | VNull => false
  | VBool b => b
  | VNum NaN => false
  | VNum (Fin z) => negb (z =? 0)
  | VStr s => negb (String.eqb s EmptyString)
  | _ => true
  end.

Definition isArray (v : jsval) : bool :=
  match v with VArr _ => true | _ => false end.

(** [typeof v === "object"] *)
Definition typeofObject (v : jsval) : bool :=
  match v with VArr _ | VObj _ | VBytes _ | VDate _ | VNull => true | _ => false end.

Definition byteToZ (b : byte) : Z := Z.of_N (Byte.to_N b).

Fixpoint assocGet {A : Type} (k : string) (l : list (string * A)) : option A :=
  match l with
  | [] => None
  | (k', v) :: t => if String.eqb k k' then Some v else assocGet k t
  end.

(** [o[k] = v] on the fields of an object: an existing key keeps its place,
    a new one goes last. *)
Fixpoint assocSet {A : Type} (k : string) (v : A) (l : list (string * A)) : list (string * A) :=
  match l with
  | [] => [(k, v)]
  | (k', v') :: t => if String.eqb k k' then (k, v) :: t else (k', v') :: assocSet k v t
  end.

Definition charAt (n : nat) (s : string) : jsval :=
  match String.get n s with
  | Some c => VStr (String c EmptyString)
  | None => VUndefined
  end.

(** [v[key]] for a value that is neither null nor undefined. *)
Definition getProp (v : jsval) (key : string) : jsval :=
  match v with
  | VObj fields =>
      match assocGet key fields with Some x => x | None => VUndefined end
  | VArr items =>
      match parseIndex key with
      | Some i => nth i items VUndefined
      | None => if String.eqb key "length" then VNum (Fin (Z.of_nat (length items))) else VUndefined
      end
  | VBytes bytes =>
      match parseIndex key with
      | Some i => match nth_error bytes i with Some b => VNum (Fin (byteToZ b)) | None => VUndefined end
      | None => if String.eqb key "length" then VNum (Fin (Z.of_nat (length bytes))) else VUndefined
      end
  | VStr s =>
      match parseIndex key with
      | Some i => charAt i s
      | None => if String.eqb key "length" then VNum (Fin (Z.of_nat (String.length s))) else VUndefined
      end
  | _ => VUndefined
  end.

Definition indexKeys (n : nat) : list string := map stringOfNat (seq 0 n).

(** [Object.keys(v)] for a value that is neither null nor undefined. *)
Definition objectKeys (v : jsval) : list string :=
  match v with
  | VObj fields => map fst fields
  | VArr items => indexKeys (length items)
  | VBytes bytes => indexKeys (length bytes)
  | VStr s => indexKeys (String.length s)
  | _ => []
  end.

Fixpoint getAt (v : jsval) (path : list string) : jsval :=
  match path with
  | [] => v
  | k :: rest => getAt (getProp v k) rest
  end.

(** Assignment of [x] to the key [k] of the object found at [path] below [v]. *)
Fixpoint setAt (v : jsval) (path : list string) (k : string) (x : jsval) : jsval :=
  match v with
  | VObj fields =>
      match path with
      | [] => VObj (assocSet k x fields)
      | p :: rest => VObj (assocSet p (setAt (getProp v p) rest k x) fields)
      end
  | _ => v
  end.

(** [a === b] between two positions [i] and [j] of one array. *)
Definition strictEqAt (i j : nat) (a b : jsval) : bool :=
  match a, b with
  | VUndefined, VUndefined => true
  | VNull, VNull => true
  | VBool x, VBool y => Bool.eqb x y
  | VNum x, VNum y => num_eq x y
  | VStr x, VStr y => String.eqb x y
  | VArr _, VArr _ | VObj _, VObj _ | VBytes _, VBytes _ | VDate _, VDate _ => Nat.eqb i j
  | _, _ => false
  end.

(** [a === b] between a value of the input and a value of the schema, which
    share no object. *)
Definition strictEq (a b : jsval) : bool := strictEqAt 0 1 a b.

(** [ar.indexOf(item)] where [item] stands at position [i]; [None] is -1. *)
Fixpoint indexOfFrom (j : nat) (ar : list jsval) (i : nat) (item : jsval) : option nat :=
  match ar with
  | [] => None
  | x :: r => if strictEqAt j i x item then Some j else indexOfFrom (S j) r i item
  end.

Fixpoint someRepeatedFrom (i : nat) (rest ar : list jsval) : bool :=
  match rest with
  | [] => false
  | item :: r =>
      match indexOfFrom 0 ar i item with
      | Some j => if Nat.eqb j i then someRepeatedFrom (S i) r ar else true
      | None => true
      end
  end.

(** [ar.some((item, i, ar) => ar.indexOf(item) !== i)] *)
Definition someRepeated (ar : list jsval) : bool := someRepeatedFrom 0 ar ar.

(** ** The host

    What the engine takes from the JavaScript runtime and from the modules
    [./util/base64] and [./util/utils], which it imports. *)

Class Host : Type := {
  (** ToNumber on a string *)
  stringToNumber : string -> number;
  (** [parseFloat] on a string *)
  parseFloatString : string -> number;
  (** [Date.parse] *)
  dateParse : string -> number;
  (** [Date.prototype.toString], [toISOString] and [toUTCString] of a valid date *)
  dateToString : number -> string;
  toISOString : Z -> string;
  toUTCString : Z -> string;
  (** [utils.isValidUuid] and [utils.isDuration] *)
  isValidUuid : string -> bool;
  isDuration : jsval -> bool;
  (** [base64.encodeByteArray] and [base64.decodeString]; [None] when the
      decoder throws *)
  encodeByteArray : list byte -> string;
  decodeString : jsval -> option jsval;
  (** [String.prototype.toLowerCase] *)
  stringToLowerCase : string -> string
}.

(** ** The mapper model *)

Record RegExp : Type := {
  source : string;
  (** [str.match(re) !== null] *)
  test : string -> bool
}.

Record MapperConstraints : Type := {
  InclusiveMaximum : option number;
  ExclusiveMaximum : option number;
  InclusiveMinimum : option number;
  ExclusiveMinimum : option number;
  MaxLength : option number;
  MinLength : option number;
  Pattern : option RegExp;
  MaxItems : option number;
  MinItems : option number;
  UniqueItems : option bool;
  MultipleOf : option number
}.

(** [string | PolymorphicDiscriminator] *)
Inductive Discriminator : Type :=
| DiscriminatorString (field : string)
| DiscriminatorObject (discSerializedName discClientName : option string).

(** [BaseMapper] and the members its variants add; an optional member that
    is not given is [None] ([VUndefined] for [defaultValue]). *)
Inductive Mapper : Type := mkMapper {
  xmlName : option string;
  xmlIsAttribute : option bool;
  xmlElementName : option string;
  xmlIsWrapped : option bool;
  readOnly : option bool;
  isConstant : option bool;
  required : option bool;
  nullable : option bool;
  serializedName : string;
  type : MapperType;
  defaultValue : jsval;
  constraints : option MapperConstraints;
  headerCollectionPrefix : option string
}
with MapperType : Type := mkMapperType {
  name : string;
  className : option string;
  modelProperties : option (list (string * Mapper));
  uberParent : option string;
  polymorphicDiscriminator : option Discriminator;
  element : option Mapper;
  value : option Mapper;
  allowedValues : option (list jsval)
}.

(** [modelMappers]: the registered composite mappers by class name, and the
    [discriminators] index. *)
Record Registry : Type := {
  models : list (string * Mapper);
  discriminators : option (list (string * Mapper))
}.

Record Serializer : Type := {
  modelMappers : option Registry;
  isXML : bool
}.

(** An optional boolean member read as a condition. *)
Definition isTrue (o : option bool) : bool :=
  match o with Some true => true | _ => false end.

(** An optional string member read as a condition. *)
Definition nonEmpty (o : option string) : bool :=
  match o with Some s => negb (String.eqb s EmptyString) | None => false end.

(** An optional string used as a property key or in a concatenation. *)
Definition keyOf (o : option string) : string :=
  match o with Some s => s | None => "undefined" end.

(** ** Outcomes *)

(** One part of a template literal. *)
Inductive part : Type :=
| Lit (s : string)
| Val (v : jsval)                (* an interpolated value *)
| Re (r : RegExp)                (* an interpolated regular expression *)
| Json (m : Mapper)              (* JSON.stringify of a mapper *)
| JsonValues (l : list jsval).   (* JSON.stringify of an array *)

Inductive error : Type :=
| Error (message : list part)    (* throw new Error(...) *)
| TypeError (what : string)      (* thrown by the runtime *)
| RangeError (what : string)
| HostError (what : string)      (* thrown inside a host function *)
| OutOfModel (what : string)     (* the run leaves the modelled values *)
| OutOfFuel.                     (* the nesting exceeds the given depth *)

Inductive result (A : Type) : Type :=
| Ok (a : A)
| Err (e : error).
Arguments Ok {A} a.
Arguments Err {A} e.

Definition bind {A B : Type} (r : result A) (f : A -> result B) : result B :=
  match r with
  | Ok a => f a
  | Err e => Err e
  end.

Notation "x <- c1 ;; c2" := (bind c1 (fun x => c2))
  (at level 61, c1 at next level, right associativity).
Notation "c1 ;;; c2" := (bind c1 (fun _ => c2))
  (at level 61, right associativity).

(** [if (cond) throw e;] *)
Definition throwIf (cond : bool) (e : error) : result unit :=
  if cond then Err e else Ok tt.

Fixpoint mapM {A B : Type} (f : A -> result B) (l : list A) : result (list B) :=
  match l with
  | [] => Ok []
  | x :: r => y <- f x ;; ys <- mapM f r ;; Ok (y :: ys)
  end.

Section Engine.

Context {host : Host}.

(** ** Conversions *)

(** ToString *)
Fixpoint toStr (v : jsval) : string :=
  match v with
  | VUndefined => "undefined"
  | VNull => "null"
  | VBool true => "true"
  | VBool false => "false"
  | VNum NaN => "NaN"
  | VNum (Fin z) => stringOfZ z
  | VStr s => s
  | VArr items =>
      joinWith "," (map (fun x => if isNullish x then EmptyString else toStr x) items)
  | VObj _ => "[object Object]"
  | VBytes bytes => joinWith "," (map (fun b => stringOfZ (byteToZ b)) bytes)
  | VDate t => dateToString t
  end.

(** ToNumber *)
Definition toNumber (v : jsval) : number :=
  match v with
  | VUndefined => NaN
  | VNull => Fin 0
  | VBool b => Fin (if b then 1 else 0)
  | VNum n => n
  | VDate t => t
  | VStr s => stringToNumber s
  | _ => stringToNumber (toStr v)
  end.

(** [parseFloat(v)] *)
Definition parseFloat (v : jsval) : number :=
  match v with
  | VNum n => n
  | _ => parseFloatString (toStr v)
  end.

(** The time value of [new Date(v)]. *)
Definition newDate (v : jsval) : number :=
  match v with
  | VDate t => t
  | VStr s => dateParse s
  | VArr _ | VObj _ | VBytes _ => dateParse (toStr v)
  | _ => toNumber v
  end.

(** ** validateConstraints *)

Definition failValidation (objectName : string) (value : jsval)
    (constraintName : string) (constraintValue : part) : error :=
  Error [Lit dq; Lit objectName; Lit dq; Lit " with value "; Lit dq; Val value; Lit dq;
         Lit " should satisfy the constraint "; Lit dq; Lit constraintName; Lit dq;
         Lit ": "; constraintValue; Lit "."].

(** [if (bound != undefined && violated(bound)) failValidation(name, bound);] *)
Definition checkBound (bound : option number) (violated : number -> bool)
    (fail : part -> error) : result unit :=
  match bound with
  | Some b => throwIf (violated b) (fail (Val (VNum b)))
  | None => Ok tt
  end.

Definition byteValues (bytes : list byte) : list jsval :=
  map (fun b => VNum (Fin (byteToZ b))) bytes.

Definition validateConstraints (mapper : Mapper) (value : jsval) (objectName : string)
    : result unit :=
  match constraints mapper with
  | Some c =>
      if negb (isNullish value) then
        let fail := failValidation objectName value in
        let len := toNumber (getProp value "length") in
        checkBound (ExclusiveMaximum c) (fun b => num_ge (toNumber value) b)
                   (fail "ExclusiveMaximum") ;;;
        checkBound (ExclusiveMinimum c) (fun b => num_le (toNumber value) b)
                   (fail "ExclusiveMinimum") ;;;
        checkBound (InclusiveMaximum c) (fun b => num_gt (toNumber value) b)
                   (fail "InclusiveMaximum") ;;;
        checkBound (InclusiveMinimum c) (fun b => num_lt (toNumber value) b)
                   (fail "InclusiveMinimum") ;;;
        checkBound (MaxItems c) (fun b => num_gt len b) (fail "MaxItems") ;;;
        checkBound (MaxLength c) (fun b => num_gt len b) (fail "MaxLength") ;;;
        checkBound (MinItems c) (fun b => num_lt len b) (fail "MinItems") ;;;
        checkBound (MinLength c) (fun b => num_lt len b) (fail "MinLength") ;;;
        checkBound (MultipleOf c)
                   (fun b => negb (num_eq (num_rem (toNumber value) b) (Fin 0)))
                   (fail "MultipleOf") ;;;
        match Pattern c with
        | Some re =>
            match value with
            | VStr s => throwIf (negb (test re s)) (fail "Pattern" (Re re))
            | _ => Err (TypeError "value.match is not a function")
            end
        | None => Ok tt
        end ;;;
        if isTrue (UniqueItems c) then
          match value with
          | VArr items =>
              throwIf (someRepeated items) (fail "UniqueItems" (Val (VBool true)))
          | VBytes bytes =>
              throwIf (someRepeated (byteValues bytes)) (fail "UniqueItems" (Val (VBool true)))
          | _ => Err (TypeError "value.some is not a function")
          end
        else Ok tt
      else Ok tt
  | None => Ok tt
  end.

(** ** Scalar encoders *)

Fixpoint trimEnd (str : string) (ch : ascii) : string :=
  match str with
  | EmptyString => EmptyString
  | String c r =>
      match trimEnd r ch with
      | EmptyString => if Ascii.eqb c ch then EmptyString else String c EmptyString
      | t => String c t
      end
  end.

Definition bufferToBase64Url (buffer : jsval) : result jsval :=
  if negb (truthy buffer) then Ok VUndefined
  else match buffer with
       | VBytes bytes =>
           let str := encodeByteArray bytes in
           Ok (VStr (replaceAll "/" "_" (replaceAll "+" "-" (trimEnd str "="))))
       | _ => Err (Error [Lit "Please provide an input of type Uint8Array for converting to Base64Url."])
       end.

Definition base64UrlToByteArray (str : jsval) : result jsval :=
  if negb (truthy str) then Ok VUndefined
  else match str with
       | VStr s =>
           match decodeString (VStr (replaceAll "_" "/" (replaceAll "-" "+" s))) with
           | Some bytes => Ok bytes
           | None => Err (HostError "base64.decodeString")
           end
       | _ => Err (Error [Lit "Please provide an input of type string for converting to Uint8Array"])
       end.

Fixpoint splitLoop (subwords : list string) (partialclass : string) (classes : list string)
    : list string :=
  match subwords with
  | [] => classes
  | item :: rest =>
      if endsWith backslash item
      then splitLoop rest (partialclass ++ dropLastChar item ++ ".") classes
      else splitLoop rest EmptyString (classes ++ [partialclass ++ item])
  end.

Definition splitSerializeName (prop : string) : list string :=
  splitLoop (splitOn "." prop) EmptyString [].

Definition dateToUnixTime (d : jsval) : result jsval :=
  if negb (truthy d) then Ok VUndefined
  else match (match d with VStr s => VDate (dateParse s) | _ => d end) with
       | VDate (Fin t) => Ok (VNum (Fin (t / 1000)))
       | VDate NaN => Ok (VNum NaN)
       | _ => Err (TypeError "d.getTime is not a function")
       end.

Definition unixTimeToDate (n : jsval) : jsval :=
  if negb (truthy n) then VUndefined
  else VDate (num_mul (toNumber n) (Fin 1000)).

(** [new Date(value).toISOString()], or [value.toISOString()] for a Date. *)
Definition isoStringOf (value : jsval) : result string :=
  match newDate value with
  | Fin t => Ok (toISOString t)
  | NaN => Err (RangeError "Invalid time value")
  end.

(** [new Date(value).toUTCString()], or [value.toUTCString()] for a Date. *)
Definition utcStringOf (value : jsval) : string :=
  match newDate value with
  | Fin t => toUTCString t
  | NaN => "Invalid Date"
  end.

(** [typeof value.valueOf() === "string"] *)
Definition isString (value : jsval) : bool :=
  match value with VStr _ => true | _ => false end.

(** [value instanceof Date ||
     (typeof value.valueOf() === "string" && !isNaN(Date.parse(value)))] *)
Definition isDateLike (value : jsval) : bool :=
  match value with
  | VDate _ => true
  | VStr s => negb (isNaN (dateParse s))
  | _ => false
  end.

Definition serializeBasicTypes (typeName objectName : string) (value : jsval)
    : result jsval :=
  if negb (isNullish value) then
    if matchesType ["Number"] typeName then
      match value with
      | VNum _ => Ok value
      | _ => Err (Error [Lit objectName; Lit " with value "; Val value;
                         Lit " must be of type number."])
      end
    else if matchesType ["String"] typeName then
      if isString value then Ok value
      else Err (Error [Lit objectName; Lit " with value "; Lit dq; Val value; Lit dq;
                       Lit " must be of type string."])
    else if matchesType ["Uuid"] typeName then
      match value with
      | VStr s =>
          if isValidUuid s then Ok value
          else Err (Error [Lit objectName; Lit " with value "; Lit dq; Val value; Lit dq;
                           Lit " must be of type string and a valid uuid."])
      | _ => Err (Error [Lit objectName; Lit " with value "; Lit dq; Val value; Lit dq;
                         Lit " must be of type string and a valid uuid."])
      end
    else if matchesType ["Boolean"] typeName then
      match value with
      | VBool _ => Ok value
      | _ => Err (Error [Lit objectName; Lit " with value "; Val value;
                         Lit " must be of type boolean."])
      end
    else if matchesType ["Stream"] typeName then
      match value with
      | VStr _ | VBytes _ => Ok value
      | _ => Err (Error [Lit objectName;
                         Lit " must be a string, Blob, ArrayBuffer, ArrayBufferView, or a function returning NodeJS.ReadableStream."])
      end
    else Ok value
  else Ok value.

(** [allowedValues.some(item => ...)] *)
Fixpoint enumSome (value : jsval) (allowed : list jsval) : result bool :=
  match allowed with
  | [] => Ok false
  | item :: rest =>
      hit <- match item with
             | VUndefined | VNull => Err (TypeError "item.valueOf")
             | VStr s =>
                 match value with
                 | VStr v => Ok (String.eqb (stringToLowerCase s) (stringToLowerCase v))
                 | _ => Err (TypeError "value.toLowerCase is not a function")
                 end
             | _ => Ok (strictEq item value)
             end ;;
      if (hit : bool) then Ok true else enumSome value rest
  end.

Definition serializeEnumType (objectName : string) (allowed : option (list jsval))
    (value : jsval) : result jsval :=
  match allowed with
  | None => Err (Error [Lit "Please provide a set of allowedValues to validate ";
                        Lit objectName; Lit " as an Enum Type."])
  | Some l =>
      isPresent <- enumSome value l ;;
      throwIf (negb isPresent)
        (Error [Val value; Lit " is not a valid value for "; Lit objectName;
                Lit ". The valid values are: "; JsonValues l; Lit "."]) ;;;
      Ok value
  end.

Definition serializeByteArrayType (objectName : string) (value : jsval) : result jsval :=
  if negb (isNullish value) then
    match value with
    | VBytes bytes => Ok (VStr (encodeByteArray bytes))
    | _ => Err (Error [Lit objectName; Lit " must be of type Uint8Array."])
    end
  else Ok value.

Definition serializeBase64UrlType (objectName : string) (value : jsval) : result jsval :=
  if negb (isNullish value) then
    match value with
    | VBytes _ => bufferToBase64Url value
    | _ => Err (Error [Lit objectName; Lit " must be of type Uint8Array."])
    end
  else Ok value.

Definition serializeDateTypes (typeName : string) (value : jsval) (objectName : string)
    : result jsval :=
  if negb (isNullish value) then
    if matchesType ["Date"] typeName then
      throwIf (negb (isDateLike value))
        (Error [Lit objectName; Lit " must be an instanceof Date or a string in ISO8601 format."]) ;;;
      s <- isoStringOf value ;;
      Ok (VStr (String.substring 0 10 s))
    else if matchesType ["DateTime"] typeName then
      throwIf (negb (isDateLike value))
        (Error [Lit objectName; Lit " must be an instanceof Date or a string in ISO8601 format."]) ;;;
      s <- isoStringOf value ;;
      Ok (VStr s)
    else if matchesType ["DateTimeRfc1123"] typeName then
      throwIf (negb (isDateLike value))
        (Error [Lit objectName; Lit " must be an instanceof Date or a string in RFC-1123 format."]) ;;;
      Ok (VStr (utcStringOf value))
    else if matchesType ["UnixTime"] typeName then
      throwIf (negb (isDateLike value))
        (Error [Lit objectName;
                Lit " must be an instanceof Date or a string in RFC-1123/ISO8601 format ";
                Lit "for it to be serialized in UnixTime/Epoch format."]) ;;;
      dateToUnixTime value
    else if matchesType ["TimeSpan"] typeName then
      throwIf (negb (isDuration value))
        (Error [Lit objectName; Lit " must be a string in ISO 8601 format. Instead was ";
                Lit dq; Val value; Lit dq; Lit "."]) ;;;
      Ok value
    else Ok value
  else Ok value.

(** ** Polymorphic resolution *)

(** [discriminatorValue === mapper.type.uberParent] *)
Definition isUberParent (discriminatorValue : jsval) (mapper : Mapper) : bool :=
  match discriminatorValue, uberParent (type mapper) with
  | VStr s, Some u => String.eqb s u
  | VUndefined, None => true
  | _, _ => false
  end.

(** The key looked up in [modelMappers.discriminators]. *)
Definition indexDiscriminator (mapper : Mapper) (discriminatorValue : jsval) : string :=
  if isUberParent discriminatorValue mapper
  then toStr discriminatorValue
  else keyOf (uberParent (type mapper)) ++ "." ++ toStr discriminatorValue.

(** [if (serializer.modelMappers &&
         serializer.modelMappers.discriminators[indexDiscriminator])
       mapper = serializer.modelMappers.discriminators[indexDiscriminator];] *)
Definition selectMapper (serializer : Serializer) (mapper : Mapper) (index : string)
    : result Mapper :=
  match modelMappers serializer with
  | Some registry =>
      match discriminators registry with
      | Some table =>
          match assocGet index table with
          | Some subtype => Ok subtype
          | None => Ok mapper
          end
      | None => Err (TypeError "Cannot read properties of undefined")
      end
  | None => Ok mapper
  end.

Definition noDiscriminatorField (field objectName : string) : error :=
  Error [Lit "No discriminator field "; Lit dq; Lit field; Lit dq;
         Lit " was found in "; Lit dq; Lit objectName; Lit dq; Lit "."].

Definition objectIsAbsent (field objectName : string) : error :=
  Error [Lit objectName; Lit dq; Lit " cannot be null or undefined. "; Lit dq;
         Lit field; Lit dq; Lit " is the ";
         Lit "polymorphicDiscriminator is a required property."].

(** Processes the new version of the polymorphicDiscriminator in the mapper. *)
Definition getPolymorphicMapperObjectVersion (serializer : Serializer) (mapper : Mapper)
    (object : jsval) (objectName mode : string) : result Mapper :=
  polymorphicPropertyName <-
    (if String.eqb mode "serialize" then Ok "clientName"
     else if String.eqb mode "deserialize" then Ok "serializedName"
     else Err (Error [Lit "The given mode "; Lit dq; Lit mode; Lit dq;
                      Lit " for getting the polymorphic mapper for "; Lit dq;
                      Lit objectName; Lit dq; Lit " is inavlid."])) ;;
  let field :=
    match polymorphicDiscriminator (type mapper) with
    | Some (DiscriminatorObject sn cn) =>
        if String.eqb polymorphicPropertyName "clientName" then cn else sn
    | _ => None
    end in
  match field with
  | Some f =>
      throwIf (isNullish object) (objectIsAbsent f objectName) ;;;
      throwIf (isNullish (getProp object f)) (noDiscriminatorField f objectName) ;;;
      selectMapper serializer mapper (indexDiscriminator mapper (getProp object f))
  | None => Ok mapper
  end.

(** Processes the old version of the polymorphicDiscriminator in the mapper. *)
Definition getPolymorphicMapperStringVersion (serializer : Serializer) (mapper : Mapper)
    (object : jsval) (objectName : string) : result Mapper :=
  match polymorphicDiscriminator (type mapper) with
  | Some d =>
      let discriminatorAsString :=
        match d with
        | DiscriminatorString s => s
        | DiscriminatorObject _ _ => "[object Object]"
        end in
      throwIf (isNullish object) (objectIsAbsent discriminatorAsString objectName) ;;;
      throwIf (isNullish (getProp object discriminatorAsString))
              (noDiscriminatorField discriminatorAsString objectName) ;;;
      selectMapper serializer mapper
        (indexDiscriminator mapper (getProp object discriminatorAsString))
  | None => Ok mapper
  end.

(** [if (mapper.type.polymorphicDiscriminator)]: the empty string is falsy. *)
Definition hasDiscriminator (mapper : Mapper) : bool :=
  match polymorphicDiscriminator (type mapper) with
  | Some (DiscriminatorString s) => negb (String.eqb s EmptyString)
  | Some (DiscriminatorObject _ _) => true
  | None => false
  end.

Definition getPolymorphicMapper (serializer : Serializer) (mapper : Mapper)
    (object : jsval) (objectName mode : string) : result Mapper :=
  if hasDiscriminator mapper then
    match polymorphicDiscriminator (type mapper) with
    | Some (DiscriminatorString _) =>
        getPolymorphicMapperStringVersion serializer mapper object objectName
    | _ => getPolymorphicMapperObjectVersion serializer mapper object objectName mode
    end
  else Ok mapper.

(** The [modelProperties] of a composite mapper, taken from the registry by
    class name when the mapper holds none.  [mode] tells the error texts of
    serializeCompositeType and deserializeCompositeType apart. *)
Definition resolveModelProperties (serializer : Serializer) (mapper : Mapper)
    (objectName mode : string) : result (list (string * Mapper)) :=
  let serializing := String.eqb mode "serialize" in
  match modelProperties (type mapper) with
  | Some modelProps => Ok modelProps
  | None =>
      if nonEmpty (className (type mapper)) then
        let cn := keyOf (className (type mapper)) in
        match modelMappers serializer with
        | None => Err (TypeError "Cannot read properties of undefined")
        | Some registry =>
            match assocGet cn (models registry) with
            | None =>
                Err (Error ([Lit "mapper() cannot be null or undefined for model ";
                             Lit dq; Lit cn; Lit dq]
                            ++ if serializing then [Lit "."] else []))
            | Some modelMapper =>
                match modelProperties (type modelMapper) with
                | Some modelProps => Ok modelProps
                | None =>
                    Err (Error [Lit "modelProperties cannot be null or undefined in the ";
                                Lit "mapper "; Lit dq; Json modelMapper; Lit dq;
                                Lit " of type "; Lit dq; Lit cn; Lit dq;
                                Lit (if serializing then " for object " else " for responseBody ");
                                Lit dq; Lit objectName; Lit dq; Lit "."])
                end
            end
        end
      else Err (Error ([Lit "Class name for model "; Lit dq; Lit objectName; Lit dq;
                        Lit " is not provided in the mapper "; Lit dq; Json mapper; Lit dq]
                       ++ if serializing then [Lit "."] else []))
  end.

(** ** Container and composite encoders *)

Fixpoint foldM {S A : Type} (f : S -> A -> result S) (l : list A) (s : S) : result S :=
  match l with
  | [] => Ok s
  | x :: r => s' <- f s x ;; foldM f r s'
  end.

(** [parentObject]: a reference into the payload under construction, kept as
    the path of the object it points to, or a value that is no plain object
    ([undefined] when a level of the path was not created). *)
Inductive cursor : Type :=
| At (path : list string)
| Detached (v : jsval).

(** One iteration of
    [for (const pathName of paths) {
       const childObject = parentObject[pathName];
       if ((childObject == undefined) && (object[key] != undefined))
         parentObject[pathName] = {};
       parentObject = parentObject[pathName]; }] *)
Definition descend (present : bool) (state : jsval * cursor) (pathName : string)
    : result (jsval * cursor) :=
  let (payload, parentObject) := state in
  match parentObject with
  | At p =>
      let childObject := getProp (getAt payload p) pathName in
      let payload' :=
        if (isNullish childObject && present)%bool
        then setAt payload p pathName (VObj [])
        else payload in
      match getProp (getAt payload' p) pathName with
      | VObj _ => Ok (payload', At (p ++ [pathName]))
      | child => Ok (payload', Detached child)
      end
  | Detached v =>
      if isNullish v then Err (TypeError "Cannot read properties of undefined")
      else Err (OutOfModel "a path through a value that is no plain object")
  end.

(** [paths.pop()] *)
Definition popLast (paths : list string) : option string :=
  match paths with
  | [] => None
  | _ => Some (last paths EmptyString)
  end.

(** The name and the parent object of a property on the wire. *)
Definition locateProperty (serializer : Serializer) (propertyMapper : Mapper)
    (present : bool) (payload : jsval) : result (jsval * cursor * option string) :=
  if isXML serializer then
    if isTrue (xmlIsWrapped propertyMapper)
    then Ok (payload, At [], xmlName propertyMapper)
    else Ok (payload, At [],
             if nonEmpty (xmlElementName propertyMapper)
             then xmlElementName propertyMapper else xmlName propertyMapper)
  else
    let paths := splitSerializeName (serializedName propertyMapper) in
    st <- foldM (descend present) (removelast paths) (payload, At []) ;;
    Ok (fst st, snd st, popLast paths).

(** The assignment of a serialized value to its place in the payload. *)
Definition placeProperty (propertyMapper : Mapper) (payload : jsval) (p : list string)
    (propName : string) (serializedValue : jsval) : result jsval :=
  if isTrue (xmlIsAttribute propertyMapper) then
    let payload' :=
      if truthy (getProp (getAt payload p) "$") then payload
      else setAt payload p "$" (VObj []) in
    match getProp (getAt payload' p) "$" with
    | VObj _ => Ok (setAt payload' (p ++ ["$"]) propName serializedValue)
    | _ => Err (OutOfModel "attributes kept in a value that is no plain object")
    end
  else if isTrue (xmlIsWrapped propertyMapper) then
    Ok (setAt payload p propName
              (VObj [(keyOf (xmlElementName propertyMapper), serializedValue)]))
  else Ok (setAt payload p propName serializedValue).

Definition propertyObjectNameOf (objectName : string) (propertyMapper : Mapper) : string :=
  if negb (String.eqb (serializedName propertyMapper) EmptyString)
  then objectName ++ "." ++ serializedName propertyMapper
  else objectName.

Section Encoders.

(** [serializer.serialize], as the encoders below call it. *)
Variable serialize : Mapper -> jsval -> string -> result jsval.
Variable serializer : Serializer.

Definition serializeSequenceType (mapper : Mapper) (object : jsval) (objectName : string)
    : result jsval :=
  match object with
  | VArr items =>
      match element (type mapper) with
      | Some elementType =>
          tempArray <- mapM (fun item => serialize elementType item objectName) items ;;
          Ok (VArr tempArray)
      | None =>
          Err (Error [Lit "element"; Lit dq; Lit " metadata for an Array must be defined in the ";
                      Lit "mapper and it must of type "; Lit dq; Lit "object"; Lit dq;
                      Lit " in "; Lit objectName; Lit "."])
      end
  | _ => Err (Error [Lit objectName; Lit " must be of type Array."])
  end.

Definition serializeDictionaryType (mapper : Mapper) (object : jsval) (objectName : string)
    : result jsval :=
  if negb (typeofObject object) then
    Err (Error [Lit objectName; Lit " must be of type object."])
  else
    match value (type mapper) with
    | Some valueType =>
        tempDictionary <-
          mapM (fun key =>
                  v <- serialize valueType (getProp object key) (objectName ++ "." ++ key) ;;
                  Ok (key, v))
               (objectKeys object) ;;
        Ok (VObj tempDictionary)
    | None =>
        Err (Error [Lit dq; Lit "value"; Lit dq;
                    Lit " metadata for a Dictionary must be defined in the ";
                    Lit "mapper and it must of type "; Lit dq; Lit "object"; Lit dq;
                    Lit " in "; Lit objectName; Lit "."])
    end.

(** The body of [for (const key of Object.keys(modelProps))]. *)
Definition serializeProperty (object : jsval) (objectName : string) (payload : jsval)
    (entry : string * Mapper) : result jsval :=
  let (key, propertyMapper) := entry in
  located <- locateProperty serializer propertyMapper
               (negb (isNullish (getProp object key))) payload ;;
  let '(payload, parentObject, propName) := located in
  (* make sure that readOnly properties are not sent on the wire *)
  if isTrue (readOnly propertyMapper) then Ok payload
  else
    match parentObject with
    | At p =>
        serializedValue <- serialize propertyMapper (getProp object key)
                             (propertyObjectNameOf objectName propertyMapper) ;;
        match propName with
        | Some propName =>
            if negb (isUndefined serializedValue)
            then placeProperty propertyMapper payload p propName serializedValue
            else Ok payload
        | None => Ok payload
        end
    | Detached v =>
        if isNullish v then Ok payload
        else Err (OutOfModel "a property of a value that is no plain object")
    end.

Definition serializeCompositeType (mapper : Mapper) (object : jsval) (objectName : string)
    : result jsval :=
  (* check for polymorphic discriminator *)
  mapper <- (if hasDiscriminator mapper
             then getPolymorphicMapper serializer mapper object objectName "serialize"
             else Ok mapper) ;;
  if negb (isNullish object) then
    modelProps <- resolveModelProperties serializer mapper objectName "serialize" ;;
    foldM (serializeProperty object objectName) modelProps (VObj [])
  else Ok object.

End Encoders.

(** ** serialize *)

Definition cannotBeUndefined (objectName : string) : error :=
  Error [Lit objectName; Lit " cannot be undefined."].
Definition cannotBeNullOrUndefined (objectName : string) : error :=
  Error [Lit objectName; Lit " cannot be null or undefined."].
Definition cannotBeNull (objectName : string) : error :=
  Error [Lit objectName; Lit " cannot be null."].

(** [if (!objectName) objectName = mapper.serializedName;] *)
Definition nameOr (objectName : string) (mapper : Mapper) : string :=
  if String.eqb objectName EmptyString then serializedName mapper else objectName.

(** [if (object == undefined && (mapper.defaultValue != undefined || mapper.isConstant))
       object = mapper.defaultValue;] *)
Definition withDefault (mapper : Mapper) (object : jsval) : jsval :=
  if (isNullish object
      && (negb (isNullish (defaultValue mapper)) || isTrue (isConstant mapper)))%bool
  then defaultValue mapper else object.

Definition serializeWith (recur : Serializer -> Mapper -> jsval -> string -> result jsval)
    (serializer : Serializer) (mapper : Mapper) (object : jsval) (objectName : string)
    : result jsval :=
  let mapperType := name (type mapper) in
  let objectName := nameOr objectName mapper in
  let object := withDefault mapper object in
  throwIf (isTrue (required mapper) && isTrue (nullable mapper) && isUndefined object)%bool
          (cannotBeUndefined objectName) ;;;
  throwIf (isTrue (required mapper) && negb (isTrue (nullable mapper)) && isNullish object)%bool
          (cannotBeNullOrUndefined objectName) ;;;
  throwIf (negb (isTrue (required mapper))
           && match nullable mapper with Some false => true | _ => false end
           && isNull object)%bool
          (cannotBeNull objectName) ;;;
  if isNullish object then Ok object
  else
    (* Validate Constraints if any *)
    validateConstraints mapper object objectName ;;;
    if matchesType ["any"] mapperType then Ok object
    else if matchesType ["Number"; "String"; "Boolean"; "Object"; "Stream"; "Uuid"] mapperType
    then serializeBasicTypes mapperType objectName object
    else if matchesType ["Enum"] mapperType
    then serializeEnumType objectName (allowedValues (type mapper)) object
    else if matchesType ["Date"; "DateTime"; "TimeSpan"; "DateTimeRfc1123"; "UnixTime"] mapperType
    then serializeDateTypes mapperType object objectName
    else if matchesType ["ByteArray"] mapperType
    then serializeByteArrayType objectName object
    else if matchesType ["Base64Url"] mapperType
    then serializeBase64UrlType objectName object
    else if matchesType ["Sequence"] mapperType
    then serializeSequenceType (recur serializer) mapper object objectName
    else if matchesType ["Dictionary"] mapperType
    then serializeDictionaryType (recur serializer) mapper object objectName
    else if matchesType ["Composite"] mapperType
    then serializeCompositeType (recur serializer) serializer mapper object objectName
    else Ok (VObj []).

(** [Serializer.serialize]; [fuel] bounds the depth of the nested calls. *)
Fixpoint serialize (fuel : nat) (serializer : Serializer) (mapper : Mapper)
    (object : jsval) (objectName : string) {struct fuel} : result jsval :=
  serializeWith
    (fun s m o n =>
       match fuel with
       | O => Err OutOfFuel
       | S f => serialize f s m o n
       end)
    serializer mapper object objectName.

(** ** Container and composite decoders *)

(** [instance[key] = v] *)
Definition assign (instance : jsval) (key : string) (v : jsval) : result jsval :=
  match instance with
  | VObj fields => Ok (VObj (assocSet key v fields))
  | VUndefined | VNull => Err (TypeError "Cannot set properties of undefined")
  | _ => Err (OutOfModel "a property set on a value that is no plain object")
  end.

(** [let res = responseBody;
     for (const item of paths) { if (!res) break; res = res[item]; }] *)
Fixpoint walkPath (res : jsval) (paths : list string) : jsval :=
  match paths with
  | [] => res
  | item :: rest => if negb (truthy res) then res else walkPath (getProp res item) rest
  end.

Section Decoders.

(** [serializer.deserialize], as the decoders below call it. *)
Variable deserialize : Mapper -> jsval -> string -> result jsval.
Variable serializer : Serializer.

Definition deserializeSequenceType (mapper : Mapper) (responseBody : jsval)
    (objectName : string) : result jsval :=
  match element (type mapper) with
  | Some elementType =>
      if truthy responseBody then
        (* xml2js will interpret a single element array as just the element,
           so force it to be an array *)
        let items := match responseBody with VArr l => l | _ => [responseBody] end in
        tempArray <- mapM (fun item => deserialize elementType item objectName) items ;;
        Ok (VArr tempArray)
      else Ok responseBody
  | None =>
      Err (Error [Lit "element"; Lit dq; Lit " metadata for an Array must be defined in the ";
                  Lit "mapper and it must of type "; Lit dq; Lit "object"; Lit dq;
                  Lit " in "; Lit objectName])
  end.

Definition deserializeDictionaryType (mapper : Mapper) (responseBody : jsval)
    (objectName : string) : result jsval :=
  match value (type mapper) with
  | Some valueType =>
      if truthy responseBody then
        tempDictionary <-
          mapM (fun key =>
                  v <- deserialize valueType (getProp responseBody key) objectName ;;
                  Ok (key, v))
               (objectKeys responseBody) ;;
        Ok (VObj tempDictionary)
      else Ok responseBody
  | None =>
      Err (Error [Lit dq; Lit "value"; Lit dq;
                  Lit " metadata for a Dictionary must be defined in the ";
                  Lit "mapper and it must of type "; Lit dq; Lit "object"; Lit dq;
                  Lit " in "; Lit objectName])
  end.

(** [serializer.deserialize(m, v, n)] where the mapper [m] may be undefined. *)
Definition deserializeOptional (m : option Mapper) (v : jsval) (n : string) : result jsval :=
  match m with
  | Some mapper => deserialize mapper v n
  | None =>
      if (isNullish v && negb (isXML serializer))%bool then Ok v
      else Err (TypeError "Cannot read properties of undefined")
  end.

(** The dictionary gathered from the keys of the response that start with
    [headerCollectionPrefix]. *)
Definition collectHeaders (propertyMapper : Mapper) (prefix : string)
    (responseBody : jsval) (propertyObjectName : string) : result jsval :=
  dictionary <-
    foldM (fun dictionary headerKey =>
             if startsWith prefix headerKey then
               v <- deserializeOptional (value (type propertyMapper))
                      (getProp responseBody headerKey) propertyObjectName ;;
               Ok (assocSet (substringFrom (String.length prefix) headerKey) v dictionary)
             else Ok dictionary)
          (objectKeys responseBody) [] ;;
  Ok (VObj dictionary).

(** The body of [for (const key of Object.keys(modelProps))]. *)
Definition deserializeProperty (responseBody : jsval) (objectName : string)
    (instance : jsval) (entry : string * Mapper) : result jsval :=
  let (key, propertyMapper) := entry in
  let propertyObjectName := propertyObjectNameOf objectName propertyMapper in
  if nonEmpty (headerCollectionPrefix propertyMapper) then
    dictionary <- collectHeaders propertyMapper (keyOf (headerCollectionPrefix propertyMapper))
                    responseBody propertyObjectName ;;
    assign instance key dictionary
  else if isXML serializer then
    if (isTrue (xmlIsAttribute propertyMapper) && truthy (getProp responseBody "$"))%bool then
      v <- deserialize propertyMapper
             (getProp (getProp responseBody "$") (keyOf (xmlName propertyMapper)))
             propertyObjectName ;;
      assign instance key v
    else
      let propertyName :=
        if nonEmpty (xmlElementName propertyMapper)
        then xmlElementName propertyMapper else xmlName propertyMapper in
      let unwrappedProperty :=
        if isTrue (xmlIsWrapped propertyMapper) then
          let wrapper := getProp responseBody (keyOf (xmlName propertyMapper)) in
          let inner :=
            if truthy wrapper
            then getProp wrapper (keyOf (xmlElementName propertyMapper))
            else wrapper in
          (* undefined means a wrapped list was empty *)
          if isUndefined inner then VArr [] else inner
        else getProp responseBody (keyOf propertyName) in
      v <- deserialize propertyMapper unwrappedProperty propertyObjectName ;;
      assign instance key v
  else
    let paths := splitSerializeName (serializedName propertyMapper) in
    (* traversing the object step by step. *)
    let propertyInstance := walkPath responseBody paths in
    (* paging *)
    if (isArray (getProp responseBody key)
        && String.eqb (serializedName propertyMapper) EmptyString)%bool
    then deserialize propertyMapper (getProp responseBody key) propertyObjectName
    else if negb (isUndefined propertyInstance) then
      serializedValue <- deserialize propertyMapper propertyInstance propertyObjectName ;;
      assign instance key serializedValue
    else Ok instance.

Definition deserializeCompositeType (mapper : Mapper) (responseBody : jsval)
    (objectName : string) : result jsval :=
  mapper <- (if hasDiscriminator mapper
             then getPolymorphicMapper serializer mapper responseBody objectName "deserialize"
             else Ok mapper) ;;
  let responseBody := if truthy responseBody then responseBody else VObj [] in
  modelProps <- resolveModelProperties serializer mapper objectName "deserialize" ;;
  foldM (deserializeProperty responseBody objectName) modelProps (VObj []).

End Decoders.

(** ** deserialize *)

Definition deserializeWith (recur : Serializer -> Mapper -> jsval -> string -> result jsval)
    (serializer : Serializer) (mapper : Mapper) (responseBody : jsval) (objectName : string)
    : result jsval :=
  if isNullish responseBody then
    if (isXML serializer && String.eqb (name (type mapper)) "Sequence"
        && negb (isTrue (xmlIsWrapped mapper)))%bool
    then
      (* Edge case for empty XML non-wrapped lists. *)
      Ok (VArr [])
    else Ok responseBody
  else
    let mapperType := name (type mapper) in
    let objectName := nameOr objectName mapper in
    payload <-
      (if matchesType ["Number"] mapperType then
         let parsed := parseFloat responseBody in
         Ok (if isNaN parsed then responseBody else VNum parsed)
       else if matchesType ["Boolean"] mapperType then
         match responseBody with
         | VStr s =>
             if String.eqb s "true" then Ok (VBool true)
             else if String.eqb s "false" then Ok (VBool false)
             else Ok responseBody
         | _ => Ok responseBody
         end
       else if matchesType ["String"; "Enum"; "Object"; "Stream"; "Uuid"; "TimeSpan"; "any"]
                           mapperType
       then Ok responseBody
       else if matchesType ["Date"; "DateTime"; "DateTimeRfc1123"] mapperType
       then Ok (VDate (newDate responseBody))
       else if matchesType ["UnixTime"] mapperType
       then Ok (unixTimeToDate responseBody)
       else if matchesType ["ByteArray"] mapperType then
         match decodeString responseBody with
         | Some bytes => Ok bytes
         | None => Err (HostError "base64.decodeString")
         end
       else if matchesType ["Base64Url"] mapperType
       then base64UrlToByteArray responseBody
       else if matchesType ["Sequence"] mapperType
       then deserializeSequenceType (recur serializer) mapper responseBody objectName
       else if matchesType ["Dictionary"] mapperType
       then deserializeDictionaryType (recur serializer) mapper responseBody objectName
       else if matchesType ["Composite"] mapperType
       then deserializeCompositeType (recur serializer) serializer mapper responseBody objectName
       else Ok VUndefined) ;;
    Ok (if isTrue (isConstant mapper) then defaultValue mapper else payload).

(** [Serializer.deserialize]; [fuel] bounds the depth of the nested calls. *)
Fixpoint deserialize (fuel : nat) (serializer : Serializer) (mapper : Mapper)
    (responseBody : jsval) (objectName : string) {struct fuel} : result jsval :=
  deserializeWith
    (fun s m v n =>
       match fuel with
       | O => Err OutOfFuel
       | S f => deserialize f s m v n
       end)
    serializer mapper responseBody objectName.

(** ** serializeObject *)

(** [for (let i = 0; i < a.length; i++) array.push(f(a[i]))] *)
Definition pushEach (f : jsval -> result jsval) : list jsval -> result (list jsval) :=
  fix go (l : list jsval) : result (list jsval) :=
    match l with
    | [] => Ok []
    | x :: r => y <- f x ;; ys <- go r ;; Ok (y :: ys)
    end.

(** [for (const property in o) dictionary[property] = f(o[property])] *)
Definition assignEach (f : jsval -> result jsval)
    : list (string * jsval) -> result (list (string * jsval)) :=
  fix go (l : list (string * jsval)) : result (list (string * jsval)) :=
    match l with
    | [] => Ok []
    | (property, x) :: r => y <- f x ;; ys <- go r ;; Ok ((property, y) :: ys)
    end.

Fixpoint serializeObject (toSerialize : jsval) : result jsval :=
  match toSerialize with
  | VUndefined | VNull => Ok VUndefined
  | VBytes bytes => Ok (VStr (encodeByteArray bytes))
  | VDate (Fin t) => Ok (VStr (toISOString t))
  | VDate NaN => Err (RangeError "Invalid time value")
  | VArr items =>
      array <- pushEach serializeObject items ;;
      Ok (VArr array)
  | VObj fields =>
      dictionary <- assignEach serializeObject fields ;;
      Ok (VObj dictionary)
  | _ => Ok toSerialize
  end.

End Engine.

(** ** A reference host *)

Definition base64Alphabet : string :=
  "ABCDEFGHIJKLMNOPQRSTUVWXYZabcdefghijklmnopqrstuvwxyz0123456789+/".

Definition base64Char (n : N) : ascii :=
  match String.get (N.to_nat n) base64Alphabet with
  | Some c => c
  | None => "="%char
  end.

Definition byteOfN (n : N) : byte :=
  match Byte.of_N (n mod 256) with
  | Some b => b
  | None => x00
  end.

(** Modelled from the spec: [base64.encodeByteArray] of [./util/base64], the
    encoding half of the byte-sequence to base64-text codec the engine calls
    into; the module is not part of the sources.  It is the base64 of
    RFC 4648, with [=] padding. *)
Fixpoint base64Encode (bytes : list byte) : string :=
  match bytes with
  | a :: b :: c :: rest =>
      let n := (Byte.to_N a * 65536 + Byte.to_N b * 256 + Byte.to_N c)%N in
      String (base64Char (n / 262144))
        (String (base64Char ((n / 4096) mod 64))
           (String (base64Char ((n / 64) mod 64))
              (String (base64Char (n mod 64)) (base64Encode rest))))
  | [a; b] =>
      let n := (Byte.to_N a * 65536 + Byte.to_N b * 256)%N in
      String (base64Char (n / 262144))
        (String (base64Char ((n / 4096) mod 64))
           (String (base64Char ((n / 64) mod 64)) "="))
  | [a] =>
      let n := (Byte.to_N a * 65536)%N in
      String (base64Char (n / 262144)) (String (base64Char ((n / 4096) mod 64)) "==")
  | [] => EmptyString
  end.

Fixpoint indexInString (c : ascii) (s : string) (i : N) : option N :=
  match s with
  | EmptyString => None
  | String d r => if Ascii.eqb c d then Some i else indexInString c r (i + 1)%N
  end.

(** The 6-bit values of a base64 text up to its padding; [None] on a
    character outside the alphabet. *)
Fixpoint base64Sextets (s : string) : option (list N) :=
  match s with
  | EmptyString => Some []
  | String c r =>
      if Ascii.eqb c "=" then Some []
      else match indexInString c base64Alphabet 0%N, base64Sextets r with
           | Some n, Some l => Some (n :: l)
           | _, _ => None
           end
  end.

Fixpoint sextetsToBytes (l : list N) : list byte :=
  match l with
  | a :: b :: c :: d :: rest =>
      let n := (a * 262144 + b * 4096 + c * 64 + d)%N in
      byteOfN (n / 65536) :: byteOfN (n / 256) :: byteOfN n :: sextetsToBytes rest
  | [a; b; c] =>
      let n := (a * 262144 + b * 4096 + c * 64)%N in
      [byteOfN (n / 65536); byteOfN (n / 256)]
  | [a; b] =>
      let n := (a * 262144 + b * 4096)%N in
      [byteOfN (n / 65536)]
  | _ => []
  end.

(** Modelled from the spec: [base64.decodeString] of [./util/base64], the
    decoding half of the codec; the module is not part of the sources.  It
    reads RFC 4648 base64 with or without its padding, and throws on a
    character outside the alphabet or on a value that is no string. *)
Definition base64Decode (v : jsval) : option jsval :=
  match v with
  | VStr s =>
      match base64Sextets s with
      | Some l => Some (VBytes (sextetsToBytes l))
      | None => None
      end
  | _ => None
  end.

Definition isSpace (c : ascii) : bool :=
  let n := nat_of_ascii c in (Nat.eqb n 32 || (Nat.leb 9 n && Nat.leb n 13))%bool.

Fixpoint skipSpaces (s : string) : string :=
  match s with
  | String c r => if isSpace c then skipSpaces r else s
  | EmptyString => EmptyString
  end.

(** The digits that open [s], as a number read so far, and what follows. *)
Fixpoint leadingDigits (acc : option Z) (s : string) : option Z * string :=
  match s with
  | String c r =>
      if isDigit c
      then leadingDigits
             (Some (10 * match acc with Some a => a | None => 0 end
                    + Z.of_nat (nat_of_ascii c - 48))) r
      else (acc, s)
  | EmptyString => (acc, s)
  end.

(** An optional sign and the digits after it. *)
Definition signedPrefix (s : string) : option Z * string :=
  match s with
  | String c r =>
      if Ascii.eqb c "-" then
        match leadingDigits None r with
        | (Some z, rest) => (Some (- z), rest)
        | (None, rest) => (None, rest)
        end
      else if Ascii.eqb c "+" then leadingDigits None r
      else leadingDigits None s
  | EmptyString => (None, s)
  end.

(** [parseFloat] on a string, within the integral numbers: the decimal
    integer that opens the text once blanks are skipped. *)
Definition integerPrefix (s : string) : number :=
  match signedPrefix (skipSpaces s) with
  | (Some z, _) => Fin z
  | (None, _) => NaN
  end.

(** ToNumber on a string, within the integral numbers: a decimal integer
    between blanks, or 0 for a blank text. *)
Definition integerOfString (s : string) : number :=
  match skipSpaces s with
  | EmptyString => Fin 0
  | t => match signedPrefix t with
         | (Some z, rest) =>
             match skipSpaces rest with EmptyString => Fin z | _ => NaN end
         | (None, _) => NaN
         end
  end.

(** A host for concrete runs: the base64 codec above, integral number
    parsing, and no support for dates, UUIDs or durations (no text is one). *)
(** [String.prototype.toLowerCase] on 8-bit code units: the letters A to Z
    and the capital letters of the Latin-1 range (U+00C0 to U+00DE but the
    multiplication sign) lie 32 below their small forms. *)
Definition lowerCodeUnit (c : ascii) : ascii :=
  let n := nat_of_ascii c in
  if ((Nat.leb 65 n && Nat.leb n 90) || (Nat.leb 192 n && Nat.leb n 214)
      || (Nat.leb 216 n && Nat.leb n 222))%bool
  then ascii_of_nat (n + 32) else c.

Fixpoint lowerCodeUnits (s : string) : string :=
  match s with
  | EmptyString => EmptyString
  | String c r => String (lowerCodeUnit c) (lowerCodeUnits r)
  end.

Definition referenceHost : Host := {|
  stringToNumber := integerOfString;
  parseFloatString := integerPrefix;
  dateParse := fun _ => NaN;
  dateToString := fun _ => "Invalid Date";
  toISOString := fun t => stringOfZ t;
  toUTCString := fun t => stringOfZ t;
  isValidUuid := fun _ => false;
  isDuration := fun _ => false;
  encodeByteArray := base64Encode;
  decodeString := base64Decode;
  stringToLowerCase := lowerCodeUnits
|}.

(** ** strEnum and MapperType *)

(** [const result = {}; for (const key of o) result[key] = key; return result;] *)
Definition strEnum (o : list string) : list (string * string) :=
  fold_left (fun result key => assocSet key key result) o [].

Definition MapperType_ : list (string * string) :=
  strEnum ["Base64Url"; "Boolean"; "ByteArray"; "Composite"; "Date"; "DateTime";
           "DateTimeRfc1123"; "Dictionary"; "Enum"; "Number"; "Object"; "Sequence";
           "String"; "Stream"; "TimeSpan"; "UnixTime"].

(** ** EnvironmentCredential

    The class reads three variables of the process environment and, when all
    three are set, hands them to a ClientSecretCredential; [getToken] awaits
    that credential's [getToken], whose outcome is the outcome of the call. *)

Section Credential.

(** [TokenResult], [RequestOptionsBase], and the [getToken] of the
    [ClientSecretCredential] built from a tenant, a client and a secret:
    declared outside this code. *)
Variables TokenResult RequestOptionsBase : Type.
Variable clientSecretGetToken :
  string -> string -> string -> list string -> option RequestOptionsBase -> TokenResult.
(** [{ result: 'unavailable', reason }] *)
Variable unavailable : string -> TokenResult.

(** The instance: its [_credential], as the arguments the
    ClientSecretCredential was built from. *)
Record EnvironmentCredential : Type := {
  _credential : option (string * string * string)
}.

(** A variable of the environment read as a condition: set and not empty. *)
Definition isSet (v : option string) : bool := nonEmpty v.

(** [constructor(options)]: [inl] is the thrown text. *)
Definition newEnvironmentCredential (isNode : bool) (env : string -> option string)
    : string + EnvironmentCredential :=
  if negb isNode
  then inl "EnvironmentCredential is only supported when running in Node.js."
  else
    let tenantId := env "AZURE_TENANT_ID" in
    let clientId := env "AZURE_CLIENT_ID" in
    let clientSecret := env "AZURE_CLIENT_SECRET" in
    if (isSet tenantId && isSet clientId && isSet clientSecret)%bool
    then inr {| _credential :=
                  Some (keyOf tenantId, keyOf clientId, keyOf clientSecret) |}
    else inr {| _credential := None |}.

Definition noClientSecret : string :=
  "No client secret credentials were found in the AZURE_TENANT_ID, AZURE_CLIENT_ID, and AZURE_CLIENT_SECRET environment variables.".

Definition getToken (this : EnvironmentCredential) (scopes : list string)
    (requestOptions : option RequestOptionsBase) : TokenResult :=
  match _credential this with
  | Some (tenantId, clientId, clientSecret) =>
      clientSecretGetToken tenantId clientId clientSecret scopes requestOptions
  | None => unavailable noClientSecret
  end.

End Credential.

(** * Properties: definitions *)

(** ** Absent values *)

(** The absentness table of the specification: whether a mapper with the
    given [required] and [nullable] admits the absent value [v].
    - required, nullable: null must be supplied, undefined is refused;
    - required, nullable false or unset: neither is admitted;
    - not required, nullable false: null is refused, undefined admitted;
    - not required, nullable true or unset: both are admitted. *)
Definition spec_table_admits (required : bool) (nullable : option bool) (v : jsval) : bool :=
  match required, nullable with
  | true, Some true => isNull v
  | true, _ => false
  | false, Some false => isUndefined v
  | false, _ => true
  end.

(** The error of the row that refuses. *)
Definition spec_table_error (required : bool) (nullable : option bool) (objectName : string)
    : error :=
  match required, nullable with
  | true, Some true => cannotBeUndefined objectName
  | true, _ => cannotBeNullOrUndefined objectName
  | false, _ => cannotBeNull objectName
  end.

(** Sample schema nodes for the concrete runs below. *)

Definition jsonSerializer : Serializer := {| modelMappers := None; isXML := false |}.
Definition xmlSerializer : Serializer := {| modelMappers := None; isXML := true |}.

Definition noType (typeName : string) : MapperType :=
  {| name := typeName; className := None; modelProperties := None; uberParent := None;
     polymorphicDiscriminator := None; element := None; value := None;
     allowedValues := None |}.

(** A mapper of the given type and serialized name, every option unset. *)
Definition plainMapper (typeName serialized : string) : Mapper :=
  {| xmlName := None; xmlIsAttribute := None; xmlElementName := None;
     xmlIsWrapped := None; readOnly := None; isConstant := None; required := None;
     nullable := None; serializedName := serialized; type := noType typeName;
     defaultValue := VUndefined; constraints := None; headerCollectionPrefix := None |}.

Definition withRequired (r n : option bool) (m : Mapper) : Mapper :=
  {| xmlName := xmlName m; xmlIsAttribute := xmlIsAttribute m;
     xmlElementName := xmlElementName m; xmlIsWrapped := xmlIsWrapped m;
     readOnly := readOnly m; isConstant := isConstant m; required := r;
     nullable := n; serializedName := serializedName m; type := type m;
     defaultValue := defaultValue m; constraints := constraints m;
     headerCollectionPrefix := headerCollectionPrefix m |}.

(** A composite mapper that holds its properties itself. *)
Definition compositeMapper (serialized : string) (props : list (string * Mapper)) : Mapper :=
  {| xmlName := None; xmlIsAttribute := None; xmlElementName := None;
     xmlIsWrapped := None; readOnly := None; isConstant := None; required := None;
     nullable := None; serializedName := serialized;
     type := {| name := "Composite"; className := None; modelProperties := Some props;
                uberParent := None; polymorphicDiscriminator := None; element := None;
                value := None; allowedValues := None |};
     defaultValue := VUndefined; constraints := None; headerCollectionPrefix := None |}.

Definition requiredNumber : Mapper :=
  withRequired (Some true) None (plainMapper "Number" "count").
Definition requiredNullableNumber : Mapper :=
  withRequired (Some true) (Some true) (plainMapper "Number" "count").

(** ** The order of the constraints *)

Inductive constraintKind : Type :=
| CExclusiveMaximum | CExclusiveMinimum | CInclusiveMaximum | CInclusiveMinimum
| CMaxItems | CMaxLength | CMinItems | CMinLength | CMultipleOf | CPattern
| CUniqueItems.

(** The order in which the specification lists the checks. *)
Definition spec_constraint_order : list constraintKind :=
  [CExclusiveMaximum; CExclusiveMinimum; CInclusiveMaximum; CInclusiveMinimum;
   CMaxItems; CMaxLength; CMinItems; CMinLength; CMultipleOf; CPattern; CUniqueItems].

(** The place of a constraint in that order. *)
Definition rank (k : constraintKind) : nat :=
  match k with
  | CExclusiveMaximum => 0 | CExclusiveMinimum => 1 | CInclusiveMaximum => 2
  | CInclusiveMinimum => 3 | CMaxItems => 4 | CMaxLength => 5 | CMinItems => 6
  | CMinLength => 7 | CMultipleOf => 8 | CPattern => 9 | CUniqueItems => 10
  end%nat.

Definition constraintName (k : constraintKind) : string :=
  match k with
  | CExclusiveMaximum => "ExclusiveMaximum" | CExclusiveMinimum => "ExclusiveMinimum"
  | CInclusiveMaximum => "InclusiveMaximum" | CInclusiveMinimum => "InclusiveMinimum"
  | CMaxItems => "MaxItems" | CMaxLength => "MaxLength" | CMinItems => "MinItems"
  | CMinLength => "MinLength" | CMultipleOf => "MultipleOf" | CPattern => "Pattern"
  | CUniqueItems => "UniqueItems"
  end.





Section ConstraintChecks.

Context {host : Host}.




End ConstraintChecks.

Definition noConstraints : MapperConstraints :=
  {| InclusiveMaximum := None; ExclusiveMaximum := None; InclusiveMinimum := None;
     ExclusiveMinimum := None; MaxLength := None; MinLength := None; Pattern := None;
     MaxItems := None; MinItems := None; UniqueItems := None; MultipleOf := None |}.

Definition withConstraints (c : MapperConstraints) (m : Mapper) : Mapper :=
  {| xmlName := xmlName m; xmlIsAttribute := xmlIsAttribute m;
     xmlElementName := xmlElementName m; xmlIsWrapped := xmlIsWrapped m;
     readOnly := readOnly m; isConstant := isConstant m; required := required m;
     nullable := nullable m; serializedName := serializedName m; type := type m;
     defaultValue := defaultValue m; constraints := Some c;
     headerCollectionPrefix := headerCollectionPrefix m |}.

(** A number that must be at most 10 and a multiple of 7. *)
Definition smallMultipleOfSeven : MapperConstraints :=
  {| InclusiveMaximum := Some (Fin 10); ExclusiveMaximum := None;
     InclusiveMinimum := None; ExclusiveMinimum := None; MaxLength := None;
     MinLength := None; Pattern := None; MaxItems := None; MinItems := None;
     UniqueItems := None; MultipleOf := Some (Fin 7) |}.

Definition boundedNumber : Mapper :=
  withConstraints smallMultipleOfSeven (plainMapper "Number" "count").

(** ** Polymorphic resolution *)

(** The field of the object that holds the discriminator value: the literal
    name for the string form; for the object form the [clientName] when
    serializing and the [serializedName] when deserializing. *)
Definition spec_discriminator_field (mapper : Mapper) (mode : string) : option string :=
  match polymorphicDiscriminator (type mapper) with
  | Some (DiscriminatorString field) => Some field
  | Some (DiscriminatorObject sn cn) =>
      if String.eqb mode "serialize" then cn
      else if String.eqb mode "deserialize" then sn
      else None
  | None => None
  end.

Section DiscriminatorIndex.

Context {host : Host}.

(** The index of the specification: the discriminator value alone when it
    equals [uberParent], and otherwise [uberParent + "." + value]. *)
Definition spec_discriminator_index (uberParent : option string) (discriminatorValue : jsval)
    : string :=
  if strictEq discriminatorValue
       (match uberParent with Some u => VStr u | None => VUndefined end)
  then toStr discriminatorValue
  else keyOf uberParent ++ "." ++ toStr discriminatorValue.

End DiscriminatorIndex.

Definition polymorphicComposite (cls : string) (props : list (string * Mapper)) : Mapper :=
  {| xmlName := None; xmlIsAttribute := None; xmlElementName := None;
     xmlIsWrapped := None; readOnly := None; isConstant := None; required := None;
     nullable := None; serializedName := cls;
     type := {| name := "Composite"; className := Some cls; modelProperties := Some props;
                uberParent := Some "Animal";
                polymorphicDiscriminator := Some (DiscriminatorString "kind");
                element := None; value := None; allowedValues := None |};
     defaultValue := VUndefined; constraints := None; headerCollectionPrefix := None |}.

Definition animalProperties : list (string * Mapper) :=
  [("kind", plainMapper "String" "kind"); ("name", plainMapper "String" "name")].

Definition animalMapper : Mapper := polymorphicComposite "Animal" animalProperties.

Definition dogMapper : Mapper :=
  polymorphicComposite "Dog" (animalProperties ++ [("bark", plainMapper "String" "bark")]).

Definition zooTable : list (string * Mapper) :=
  [("Animal", animalMapper); ("Animal.Dog", dogMapper)].

Definition zooRegistry : Registry :=
  {| models := [("Animal", animalMapper); ("Dog", dogMapper)];
     discriminators := Some zooTable |}.

Definition zooSerializer : Serializer :=
  {| modelMappers := Some zooRegistry; isXML := false |}.

Definition rex : jsval :=
  VObj [("kind", VStr "Dog"); ("name", VStr "Rex"); ("bark", VStr "loud")].

Definition tom : jsval :=
  VObj [("kind", VStr "Cat"); ("name", VStr "Tom"); ("purr", VStr "soft")].

(** ** Dotted paths *)



(** ** XML names *)

(** The wire name of a property in XML mode as the specification words it:
    [xmlElementName] when wrapped, else [xmlElementName] or [xmlName]. *)
Definition spec_xml_wire_name (propertyMapper : Mapper) : option string :=
  if isTrue (xmlIsWrapped propertyMapper) then xmlElementName propertyMapper
  else if nonEmpty (xmlElementName propertyMapper) then xmlElementName propertyMapper
       else xmlName propertyMapper.

Definition withXml (xname ename : option string) (attribute wrapped : option bool)
    (m : Mapper) : Mapper :=
  {| xmlName := xname; xmlIsAttribute := attribute; xmlElementName := ename;
     xmlIsWrapped := wrapped; readOnly := readOnly m; isConstant := isConstant m;
     required := required m; nullable := nullable m; serializedName := serializedName m;
     type := type m; defaultValue := defaultValue m; constraints := constraints m;
     headerCollectionPrefix := headerCollectionPrefix m |}.

Definition withReadOnly (m : Mapper) : Mapper :=
  {| xmlName := xmlName m; xmlIsAttribute := xmlIsAttribute m;
     xmlElementName := xmlElementName m; xmlIsWrapped := xmlIsWrapped m;
     readOnly := Some true; isConstant := isConstant m; required := required m;
     nullable := nullable m; serializedName := serializedName m; type := type m;
     defaultValue := defaultValue m; constraints := constraints m;
     headerCollectionPrefix := headerCollectionPrefix m |}.

(** A sequence of numbers. *)
Definition numberList (serialized : string) : Mapper :=
  {| xmlName := None; xmlIsAttribute := None; xmlElementName := None;
     xmlIsWrapped := None; readOnly := None; isConstant := None; required := None;
     nullable := None; serializedName := serialized;
     type := {| name := "Sequence"; className := None; modelProperties := None;
                uberParent := None; polymorphicDiscriminator := None;
                element := Some (plainMapper "Number" "item"); value := None;
                allowedValues := None |};
     defaultValue := VUndefined; constraints := None; headerCollectionPrefix := None |}.

(** A wrapped list: [<Items><Item>1</Item><Item>2</Item></Items>]. *)
Definition wrappedItems : Mapper :=
  withXml (Some "Items") (Some "Item") None (Some true) (numberList "items").

Definition basket : Mapper := compositeMapper "Basket" [("items", wrappedItems)].

Definition twoItems : jsval := VObj [("items", VArr [VNum (Fin 1); VNum (Fin 2)])].


Definition readOnlyNested : Mapper := withReadOnly (plainMapper "Number" "a.b").




(** ** Base64Url *)

Fixpoint hasChar (c : ascii) (s : string) : bool :=
  match s with
  | EmptyString => false
  | String d r => (Ascii.eqb c d || hasChar c r)%bool
  end.

Definition base64UrlMapper : Mapper := plainMapper "Base64Url" "data".

(** ** Constraint violations *)

(** The errors [failValidation] builds, told by the fourth part of their
    text. *)
Definition isConstraintViolation (e : error) : bool :=
  match e with
  | Error (_ :: _ :: _ :: Lit w :: _) => String.eqb w " with value "
  | _ => false
  end.

(** An outcome that is no constraint violation. *)
Definition clean {A : Type} (r : result A) : Prop :=
  forall e, r = Err e -> isConstraintViolation e = false.

(** Two outcomes that agree but for the mapper they carry, whose type is
    the same. *)
Definition sameSelection (r1 r2 : result Mapper) : Prop :=
  match r1, r2 with
  | Ok m1, Ok m2 => type m1 = type m2
  | Err e1, Err e2 => e1 = e2
  | _, _ => False
  end.

(** ** Further definitions *)

(** [n] copies of [ch]. *)
Fixpoint repeatChar (n : nat) (ch : ascii) : string :=
  match n with
  | O => EmptyString
  | S m => String ch (repeatChar m ch)
  end.

(** A mapper of the given type that holds an element mapper (Sequence), a
    value mapper (Dictionary) or allowed values (Enum). *)
Definition mapperOf (typeName serialized : string) (elementMapper valueMapper : option Mapper)
    (allowed : option (list jsval)) : Mapper :=
  {| xmlName := None; xmlIsAttribute := None; xmlElementName := None;
     xmlIsWrapped := None; readOnly := None; isConstant := None; required := None;
     nullable := None; serializedName := serialized;
     type := {| name := typeName; className := None; modelProperties := None;
                uberParent := None; polymorphicDiscriminator := None;
                element := elementMapper; value := valueMapper;
                allowedValues := allowed |};
     defaultValue := VUndefined; constraints := None; headerCollectionPrefix := None |}.

Definition withDefaultValue (d : jsval) (constant : option bool) (m : Mapper) : Mapper :=
  {| xmlName := xmlName m; xmlIsAttribute := xmlIsAttribute m;
     xmlElementName := xmlElementName m; xmlIsWrapped := xmlIsWrapped m;
     readOnly := readOnly m; isConstant := constant; required := required m;
     nullable := nullable m; serializedName := serializedName m; type := type m;
     defaultValue := d; constraints := constraints m;
     headerCollectionPrefix := headerCollectionPrefix m |}.


(** The type names [serialize] and [deserialize] dispatch on. *)
Definition knownTypes : list string :=
  ["any"; "Number"; "String"; "Boolean"; "Object"; "Stream"; "Uuid"; "Enum"; "Date";
   "DateTime"; "TimeSpan"; "DateTimeRfc1123"; "UnixTime"; "ByteArray"; "Base64Url";
   "Sequence"; "Dictionary"; "Composite"].

(** The types whose values [serialize] checks and returns as they are. *)
Definition checkedOnlyTypes : list string :=
  ["any"; "Number"; "String"; "Boolean"; "Object"; "Stream"; "Uuid"; "Enum"; "TimeSpan"].


Definition colourMapper : Mapper :=
  mapperOf "Enum" "colour" None None (Some [VStr "Red"; VStr "Blue"]).

Definition constantVersion : Mapper :=
  withDefaultValue (VStr "2019-01-01") (Some true) (plainMapper "String" "api-version").

(** ** serializeObject *)

(** A value made of undefined, booleans, numbers, texts, arrays and plain
    objects only: no null, no Uint8Array, no Date. *)
Fixpoint plainValue (v : jsval) : bool :=
  match v with
  | VNull | VBytes _ | VDate _ => false
  | VArr items => forallb plainValue items
  | VObj fields => forallb (fun kv => plainValue (snd kv)) fields
  | _ => true
  end.

(** A value that holds an invalid Date somewhere. *)
Fixpoint holdsInvalidDate (v : jsval) : bool :=
  match v with
  | VDate NaN => true
  | VArr items => existsb holdsInvalidDate items
  | VObj fields => existsb (fun kv => holdsInvalidDate (snd kv)) fields
  | _ => false
  end.

Section JsvalInduction.

Variable P : jsval -> Prop.
Hypothesis P_undefined : P VUndefined.
Hypothesis P_null : P VNull.
Hypothesis P_bool : forall b, P (VBool b).
Hypothesis P_num : forall n, P (VNum n).
Hypothesis P_str : forall s, P (VStr s).
Hypothesis P_arr : forall items, Forall P items -> P (VArr items).
Hypothesis P_obj : forall fields, Forall (fun kv => P (snd kv)) fields -> P (VObj fields).
Hypothesis P_bytes : forall bytes, P (VBytes bytes).
Hypothesis P_date : forall t, P (VDate t).

(** Induction on a value, with the items of an array and the values of an
    object as the smaller values. *)
Fixpoint jsval_induction (v : jsval) : P v :=
  match v with
  | VUndefined => P_undefined
  | VNull => P_null
  | VBool b => P_bool b
  | VNum n => P_num n
  | VStr s => P_str s
  | VArr items =>
      P_arr items
        ((fix go (l : list jsval) : Forall P l :=
            match l with
            | [] => Forall_nil P
            | x :: r => Forall_cons x (jsval_induction x) (go r)
            end) items)
  | VObj fields =>
      P_obj fields
        ((fix go (l : list (string * jsval)) : Forall (fun kv => P (snd kv)) l :=
            match l with
            | [] => Forall_nil _
            | kv :: r => Forall_cons kv (jsval_induction (snd kv)) (go r)
            end) fields)
  | VBytes bytes => P_bytes bytes
  | VDate t => P_date t
  end.

End JsvalInduction.

Section SerializeObjectOutcome.

Context {host : Host}.

(** The outcome of [serializeObject] on [v] is as the invalid dates of [v]
    say. *)
Definition failsOnInvalidDate (v : jsval) : Prop :=
  match serializeObject v with
  | Ok _ => holdsInvalidDate v = false
  | Err e => holdsInvalidDate v = true /\ e = RangeError "Invalid time value"
  end.

End SerializeObjectOutcome.

(** A composite mapper that names its class and holds no properties. *)
Definition compositeByName (cls : string) : Mapper :=
  {| xmlName := None; xmlIsAttribute := None; xmlElementName := None;
     xmlIsWrapped := None; readOnly := None; isConstant := None; required := None;
     nullable := None; serializedName := cls;
     type := {| name := "Composite"; className := Some cls; modelProperties := None;
                uberParent := None; polymorphicDiscriminator := None; element := None;
                value := None; allowedValues := None |};
     defaultValue := VUndefined; constraints := None; headerCollectionPrefix := None |}.

Definition dogProperties : list (string * Mapper) :=
  (animalProperties ++ [("bark", plainMapper "String" "bark")])%list.




(** ** Constraints with UniqueItems alone *)

Definition uniqueItemsOnly : MapperConstraints :=
  {| InclusiveMaximum := None; ExclusiveMaximum := None; InclusiveMinimum := None;
     ExclusiveMinimum := None; MaxLength := None; MinLength := None; Pattern := None;
     MaxItems := None; MinItems := None; UniqueItems := Some true; MultipleOf := None |}.

Definition texts (l : list string) : jsval := VArr (map VStr l).

Definition numbers (l : list Z) : jsval := VArr (map (fun z => VNum (Fin z)) l).

(** ** A process environment *)

Definition environmentOf (vars : list (string * string)) (key : string) : option string :=
  assocGet key vars.

(** Rex with a property that no mapper of the zoo names. *)
Definition collaredRex : jsval :=
  VObj [("kind", VStr "Dog"); ("collar", VStr "red"); ("name", VStr "Rex");
        ("bark", VStr "loud")].


(** * Properties: theorems *)

(** ** Absent values *)

Section AbsentValues.

Context {host : Host}.

Lemma serialize_unfold (fuel : nat) (serializer : Serializer) (mapper : Mapper)
    (object : jsval) (objectName : string) :
  serialize fuel serializer mapper object objectName =
  serializeWith
    (fun s m o n => match fuel with O => Err OutOfFuel | S f => serialize f s m o n end)
    serializer mapper object objectName.
Proof. destruct fuel; reflexivity. Qed.

Lemma deserialize_unfold (fuel : nat) (serializer : Serializer) (mapper : Mapper)
    (responseBody : jsval) (objectName : string) :
  deserialize fuel serializer mapper responseBody objectName =
  deserializeWith
    (fun s m v n => match fuel with O => Err OutOfFuel | S f => deserialize f s m v n end)
    serializer mapper responseBody objectName.
Proof. destruct fuel; reflexivity. Qed.

(** C1. For every mapper and every value handed to [serialize], once the
    default or constant has been substituted: when the value is undefined or
    null, [serialize] returns it unchanged exactly when the row of the
    absentness table for the mapper's [required] and [nullable] admits it, and
    otherwise throws the row's required/nullable error, which names the
    object. *)
Theorem serialize_enforces_absentness_table (fuel : nat) (serializer : Serializer)
    (mapper : Mapper) (object : jsval) (objectName : string) :
  isNullish (withDefault mapper object) = true ->
  serialize fuel serializer mapper object objectName =
    if spec_table_admits (isTrue (required mapper)) (nullable mapper)
                         (withDefault mapper object)
    then Ok (withDefault mapper object)
    else Err (spec_table_error (isTrue (required mapper)) (nullable mapper)
                               (nameOr objectName mapper)).
Proof.
  intros Habsent.
  rewrite serialize_unfold. unfold serializeWith.
  destruct (withDefault mapper object) eqn:Hv; try discriminate Habsent;
    destruct (required mapper) as [[|]|];
    destruct (nullable mapper) as [[|]|]; reflexivity.
Qed.

(** C3 (as amended). [deserialize] makes no required/nullable check: for
    every mapper, an undefined or null wire value is returned as it is,
    without an error, whatever [required] and [nullable] say; only in XML
    mode a Sequence mapper that is not wrapped gives the empty list
    instead. *)
Theorem deserialize_returns_absent_values (fuel : nat) (serializer : Serializer)
    (mapper : Mapper) (responseBody : jsval) (objectName : string) :
  isNullish responseBody = true ->
  deserialize fuel serializer mapper responseBody objectName =
    Ok (if (isXML serializer && String.eqb (name (type mapper)) "Sequence"
            && negb (isTrue (xmlIsWrapped mapper)))%bool
        then VArr [] else responseBody).
Proof.
  intros Habsent.
  rewrite deserialize_unfold. unfold deserializeWith. rewrite Habsent.
  destruct (isXML serializer && String.eqb (name (type mapper)) "Sequence"
            && negb (isTrue (xmlIsWrapped mapper)))%bool; reflexivity.
Qed.

End AbsentValues.

Lemma serialize_enforces_absentness_table_witness :
  serialize (host := referenceHost) 0 jsonSerializer requiredNullableNumber VNull "count"
  = Ok VNull.
Proof.
  exact (serialize_enforces_absentness_table (host := referenceHost) 0 jsonSerializer
           requiredNullableNumber VNull "count" eq_refl).
Defined.

(** The rows of the table, run. *)
Example absentness_rows :
  let run r n v :=
    serialize (host := referenceHost) 0 jsonSerializer
      (withRequired r n (plainMapper "String" "s")) v "s" in
  run (Some true) (Some true) VUndefined = Err (cannotBeUndefined "s")
  /\ run (Some true) (Some true) VNull = Ok VNull
  /\ run (Some true) (Some false) VUndefined = Err (cannotBeNullOrUndefined "s")
  /\ run (Some true) (Some false) VNull = Err (cannotBeNullOrUndefined "s")
  /\ run (Some true) None VUndefined = Err (cannotBeNullOrUndefined "s")
  /\ run (Some true) None VNull = Err (cannotBeNullOrUndefined "s")
  /\ run (Some false) (Some false) VUndefined = Ok VUndefined
  /\ run (Some false) (Some false) VNull = Err (cannotBeNull "s")
  /\ run (Some false) (Some true) VUndefined = Ok VUndefined
  /\ run (Some false) (Some true) VNull = Ok VNull
  /\ run (Some false) None VUndefined = Ok VUndefined
  /\ run (Some false) None VNull = Ok VNull.
Proof. repeat split. Qed.

(** C3 as stated fails: a required (and a required, nullable) mapper
    deserializes an undefined wire value, and a required non-nullable one a
    null wire value, to that value with no error, where [serialize] throws. *)
Lemma deserialize_required_absent_no_error :
  deserialize (host := referenceHost) 0 jsonSerializer requiredNumber VUndefined "count"
    = Ok VUndefined
  /\ deserialize (host := referenceHost) 0 jsonSerializer requiredNumber VNull "count"
    = Ok VNull
  /\ deserialize (host := referenceHost) 0 jsonSerializer requiredNullableNumber
       VUndefined "count" = Ok VUndefined
  /\ serialize (host := referenceHost) 0 jsonSerializer requiredNumber VUndefined "count"
    = Err (cannotBeNullOrUndefined "count")
  /\ ~ (exists e, deserialize (host := referenceHost) 0 jsonSerializer requiredNumber
                    VUndefined "count" = Err e).
Proof.
  repeat split. intros [e He]. discriminate He.
Qed.

Lemma deserialize_returns_absent_values_witness :
  deserialize (host := referenceHost) 0 xmlSerializer (plainMapper "Sequence" "items")
    VUndefined "items" = Ok (VArr []).
Proof.
  exact (deserialize_returns_absent_values (host := referenceHost) 0 xmlSerializer
           (plainMapper "Sequence" "items") VUndefined "items" eq_refl).
Defined.

(** ** The order of the constraints *)

Section ConstraintOrder.

Context {host : Host}.

Lemma rank_in_order (k : constraintKind) :
  nth_error spec_constraint_order (rank k) = Some k.
Proof. destruct k; reflexivity. Qed.











End ConstraintOrder.


(** ** Polymorphic resolution *)

Section Polymorphism.

Context {host : Host}.

Lemma indexDiscriminator_spec (mapper : Mapper) (dv : jsval) :
  indexDiscriminator mapper dv = spec_discriminator_index (uberParent (type mapper)) dv.
Proof.
  unfold indexDiscriminator, spec_discriminator_index, isUberParent, strictEq, strictEqAt.
  destruct dv, (uberParent (type mapper)); reflexivity.
Qed.

Lemma getPolymorphicMapper_selects (serializer : Serializer) (mapper : Mapper)
    (object : jsval) (objectName mode field : string) :
  hasDiscriminator mapper = true ->
  spec_discriminator_field mapper mode = Some field ->
  isNullish object = false ->
  isNullish (getProp object field) = false ->
  getPolymorphicMapper serializer mapper object objectName mode =
  selectMapper serializer mapper
    (spec_discriminator_index (uberParent (type mapper)) (getProp object field)).
Proof.
  intros Hhas Hfield Hobj Hdv.
  unfold getPolymorphicMapper. rewrite Hhas.
  unfold spec_discriminator_field in Hfield.
  destruct (polymorphicDiscriminator (type mapper)) as [[f|sn cn]|] eqn:Hd;
    [| |discriminate Hfield].
  - injection Hfield as ->.
    unfold getPolymorphicMapperStringVersion. rewrite Hd, Hobj, Hdv.
    cbn [throwIf bind]. now rewrite indexDiscriminator_spec.
  - unfold getPolymorphicMapperObjectVersion. rewrite Hd.
    destruct (String.eqb mode "serialize") eqn:Hs.
    + cbn [bind]. cbn [String.eqb Ascii.eqb Bool.eqb]. rewrite Hfield, Hobj, Hdv.
      cbn [throwIf bind]. now rewrite indexDiscriminator_spec.
    + destruct (String.eqb mode "deserialize") eqn:Hds; [|discriminate Hfield].
      cbn [bind]. cbn [String.eqb Ascii.eqb Bool.eqb]. rewrite Hfield, Hobj, Hdv.
      cbn [throwIf bind]. now rewrite indexDiscriminator_spec.
Qed.

(** C4. For a composite mapper that declares a polymorphic discriminator, in
    the string or the object form, and an object that carries the
    discriminator field: the index looked up in the registry's discriminator
    table is the discriminator value alone when it equals the mapper's
    [uberParent], and [uberParent + "." + value] otherwise; the registered
    subtype mapper, when the table holds one under that index, becomes the
    mapper of all the processing that follows, in [serializeCompositeType] as
    in [deserializeCompositeType]; and when the table holds none the base
    mapper is kept and no error is raised. *)
Theorem polymorphic_subtype_replaces_base (serializer : Serializer) (registry : Registry)
    (table : list (string * Mapper)) (mapper : Mapper) (object : jsval)
    (objectName mode field : string) :
  modelMappers serializer = Some registry ->
  discriminators registry = Some table ->
  hasDiscriminator mapper = true ->
  spec_discriminator_field mapper mode = Some field ->
  isNullish object = false ->
  isNullish (getProp object field) = false ->
  let index :=
    spec_discriminator_index (uberParent (type mapper)) (getProp object field) in
  let effective :=
    match assocGet index table with
    | Some subtype => subtype
    | None => mapper
    end in
  getPolymorphicMapper serializer mapper object objectName mode = Ok effective
  /\ (mode = "serialize" ->
      forall recur,
        serializeCompositeType recur serializer mapper object objectName =
        (modelProps <- resolveModelProperties serializer effective objectName "serialize" ;;
         foldM (serializeProperty recur serializer object objectName) modelProps (VObj [])))
  /\ (mode = "deserialize" ->
      forall recur,
        deserializeCompositeType recur serializer mapper object objectName =
        (modelProps <- resolveModelProperties serializer effective objectName "deserialize" ;;
         foldM (deserializeProperty recur serializer
                  (if truthy object then object else VObj []) objectName)
               modelProps (VObj []))).
Proof.
  intros Hreg Htable Hhas Hfield Hobj Hdv index effective.
  assert (getPolymorphicMapper serializer mapper object objectName mode = Ok effective)
    as Hget.
  { rewrite (getPolymorphicMapper_selects serializer mapper object objectName mode field)
      by assumption.
    unfold selectMapper. rewrite Hreg, Htable. fold index.
    unfold effective. destruct (assocGet index table); reflexivity. }
  split; [exact Hget|]. split.
  - intros -> recur. unfold serializeCompositeType.
    rewrite Hhas, Hget, Hobj. reflexivity.
  - intros -> recur. unfold deserializeCompositeType.
    rewrite Hhas, Hget. reflexivity.
Qed.

(** Without a registry the base mapper is kept as well. *)
Lemma getPolymorphicMapper_without_registry (serializer : Serializer) (mapper : Mapper)
    (object : jsval) (objectName mode field : string) :
  modelMappers serializer = None ->
  hasDiscriminator mapper = true ->
  spec_discriminator_field mapper mode = Some field ->
  isNullish object = false ->
  isNullish (getProp object field) = false ->
  getPolymorphicMapper serializer mapper object objectName mode = Ok mapper.
Proof.
  intros Hreg Hhas Hfield Hobj Hdv.
  rewrite (getPolymorphicMapper_selects serializer mapper object objectName mode field)
    by assumption.
  unfold selectMapper. now rewrite Hreg.
Qed.

End Polymorphism.

Lemma polymorphic_subtype_replaces_base_witness :
  getPolymorphicMapper (host := referenceHost) zooSerializer animalMapper rex
    "pet" "serialize" = Ok dogMapper
  /\ getPolymorphicMapper (host := referenceHost) zooSerializer animalMapper tom
       "pet" "serialize" = Ok animalMapper.
Proof.
  split.
  - exact (proj1 (polymorphic_subtype_replaces_base (host := referenceHost)
                    zooSerializer zooRegistry zooTable animalMapper rex
                    "pet" "serialize" "kind"
                    eq_refl eq_refl eq_refl eq_refl eq_refl eq_refl)).
  - exact (proj1 (polymorphic_subtype_replaces_base (host := referenceHost)
                    zooSerializer zooRegistry zooTable animalMapper tom
                    "pet" "serialize" "kind"
                    eq_refl eq_refl eq_refl eq_refl eq_refl eq_refl)).
Defined.

(** The subtype's own properties reach the payload; an unregistered
    discriminator value leaves the properties of the base mapper. *)
Example polymorphic_serialize_runs :
  serialize (host := referenceHost) 1 zooSerializer animalMapper rex "pet"
    = Ok (VObj [("kind", VStr "Dog"); ("name", VStr "Rex"); ("bark", VStr "loud")])
  /\ serialize (host := referenceHost) 1 zooSerializer animalMapper tom "pet"
    = Ok (VObj [("kind", VStr "Cat"); ("name", VStr "Tom")]).
Proof. split; reflexivity. Qed.

(** ** Dotted paths *)

Section DottedPaths.

Context {host : Host}.

Lemma assocGet_single {A : Type} (k : string) (v : A) : assocGet k [(k, v)] = Some v.
Proof. cbn. now rewrite String.eqb_refl. Qed.













Lemma deserialize_compositeMapper (fuel : nat) (serializer : Serializer) (sn : string)
    (props : list (string * Mapper)) (responseBody : jsval) (objectName : string) :
  isNullish responseBody = false ->
  deserialize (S fuel) serializer (compositeMapper sn props) responseBody objectName =
  foldM (deserializeProperty (deserialize fuel serializer) serializer
           (if truthy responseBody then responseBody else VObj [])
           (nameOr objectName (compositeMapper sn props)))
        props (VObj []).
Proof.
  intros Hrb. rewrite deserialize_unfold.
  unfold deserializeWith, deserializeCompositeType, hasDiscriminator,
    resolveModelProperties.
  rewrite Hrb.
  cbn [compositeMapper isConstant type name polymorphicDiscriminator modelProperties
       isTrue bind].
  destruct (foldM _ props (VObj [])); reflexivity.
Qed.

Lemma deserializeProperty_walks (recur : Mapper -> jsval -> string -> result jsval)
    (serializer : Serializer) (responseBody : jsval) (objectName key : string)
    (propertyMapper : Mapper) (instance : jsval) :
  isXML serializer = false ->
  nonEmpty (headerCollectionPrefix propertyMapper) = false ->
  serializedName propertyMapper <> EmptyString ->
  deserializeProperty recur serializer responseBody objectName instance
    (key, propertyMapper) =
  let found := walkPath responseBody (splitSerializeName (serializedName propertyMapper)) in
  if isUndefined found then Ok instance
  else v <- recur propertyMapper found (propertyObjectNameOf objectName propertyMapper) ;;
       assign instance key v.
Proof.
  intros Hxml Hhdr Hname. unfold deserializeProperty. rewrite Hhdr, Hxml.
  destruct (String.eqb_spec (serializedName propertyMapper) EmptyString) as [E|_];
    [contradiction|].
  rewrite Bool.andb_false_r. cbv zeta.
  destruct (isUndefined (walkPath responseBody _)); reflexivity.
Qed.


End DottedPaths.


(** ** The payload of a composite *)

Section CompositePayload.

Context {host : Host}.

Lemma assocGet_assocSet {A : Type} (k : string) (x : A) (l : list (string * A)) :
  assocGet k (assocSet k x l) = Some x.
Proof.
  induction l as [|[k' v'] l IH]; cbn [assocSet assocGet].
  - now rewrite String.eqb_refl.
  - destruct (String.eqb k k') eqn:E; cbn [assocGet]; rewrite ?String.eqb_refl, ?E; auto.
Qed.

Lemma assocSet_assocSet {A : Type} (k : string) (x y : A) (l : list (string * A)) :
  assocSet k y (assocSet k x l) = assocSet k y l.
Proof.
  induction l as [|[k' v'] l IH]; cbn [assocSet].
  - now rewrite String.eqb_refl.
  - destruct (String.eqb k k') eqn:E; cbn [assocSet]; rewrite ?String.eqb_refl, ?E;
      [reflexivity | now rewrite IH].
Qed.










(** C6 (as amended). In XML mode the key under which [serialize] stores a
    property in the payload is its [xmlName] when the property is wrapped, the
    value going one level below it as [{ xmlElementName: value }]; when the
    property is not wrapped the key is its [xmlElementName] if that is present
    and not empty, else its [xmlName].  An attribute is stored under the same
    name inside the [$] object of the payload. *)
Theorem xml_property_key (recur : Mapper -> jsval -> string -> result jsval)
    (serializer : Serializer) (object : jsval) (objectName : string)
    (fields : list (string * jsval)) (key : string) (pm : Mapper) (sv : jsval)
    (wireKey : string) :
  isXML serializer = true ->
  isTrue (readOnly pm) = false ->
  recur pm (getProp object key) (propertyObjectNameOf objectName pm) = Ok sv ->
  isUndefined sv = false ->
  (if isTrue (xmlIsWrapped pm) then xmlName pm
   else if nonEmpty (xmlElementName pm) then xmlElementName pm else xmlName pm)
  = Some wireKey ->
  let stored :=
    if isTrue (xmlIsWrapped pm) then VObj [(keyOf (xmlElementName pm), sv)] else sv in
  (isTrue (xmlIsAttribute pm) = false ->
   serializeProperty recur serializer object objectName (VObj fields) (key, pm)
     = Ok (VObj (assocSet wireKey stored fields))
   /\ getProp (VObj (assocSet wireKey stored fields)) wireKey = stored)
  /\ (isTrue (xmlIsAttribute pm) = true ->
      forall attributes,
        (getProp (VObj fields) "$" = VObj attributes
         \/ (truthy (getProp (VObj fields) "$") = false /\ attributes = [])) ->
        serializeProperty recur serializer object objectName (VObj fields) (key, pm)
          = Ok (VObj (assocSet "$" (VObj (assocSet wireKey sv attributes)) fields))
        /\ getAt (VObj (assocSet "$" (VObj (assocSet wireKey sv attributes)) fields))
                 ["$"; wireKey] = sv).
Proof.
  intros Hxml Hro Hrec Hsv Hkey stored.
  assert (locateProperty serializer pm (negb (isNullish (getProp object key))) (VObj fields)
          = Ok (VObj fields, At [], Some wireKey)) as Hloc.
  { unfold locateProperty. rewrite Hxml.
    destruct (isTrue (xmlIsWrapped pm)); now rewrite Hkey. }
  split.
  - intros Hattr. split; [|cbn [getProp]; now rewrite assocGet_assocSet].
    unfold serializeProperty. rewrite Hloc. cbn [bind]. rewrite Hro, Hrec. cbn [bind].
    rewrite Hsv. cbn [negb]. unfold placeProperty. rewrite Hattr.
    unfold stored. destruct (isTrue (xmlIsWrapped pm)); reflexivity.
  - intros Hattr attributes Hstore.
    split; [|cbn [getAt getProp]; rewrite assocGet_assocSet; cbn [getProp];
             now rewrite assocGet_assocSet].
    unfold serializeProperty. rewrite Hloc. cbn [bind]. rewrite Hro, Hrec. cbn [bind].
    rewrite Hsv. cbn [negb]. unfold placeProperty. rewrite Hattr. cbn [getAt].
    destruct Hstore as [Hobj | [Hfalsy ->]].
    + rewrite Hobj. cbn [truthy]. rewrite Hobj. cbn [app setAt]. now rewrite Hobj.
    + rewrite Hfalsy. cbn [setAt getProp]. rewrite assocGet_assocSet.
      cbn [app setAt getProp]. rewrite assocGet_assocSet. cbn [setAt assocSet].
      now rewrite assocSet_assocSet.
Qed.








End CompositePayload.

Lemma xml_property_key_witness :
  serializeProperty (serialize (host := referenceHost) 1 xmlSerializer) xmlSerializer
    twoItems "Basket" (VObj []) ("items", wrappedItems)
  = Ok (VObj [("Items", VObj [("Item", VArr [VNum (Fin 1); VNum (Fin 2)])])]).
Proof.
  refine (proj1 (proj1 (xml_property_key
            (serialize (host := referenceHost) 1 xmlSerializer) xmlSerializer
            twoItems "Basket" [] "items" wrappedItems
            (VArr [VNum (Fin 1); VNum (Fin 2)]) "Items"
            eq_refl eq_refl eq_refl eq_refl eq_refl) eq_refl)).
Defined.

(** C6 as stated fails: a wrapped list with [xmlName] Items and
    [xmlElementName] Item is stored under the key Items; the key Item, which
    the specification names, holds nothing in the payload. *)
Lemma xml_wrapped_key_is_not_element_name :
  spec_xml_wire_name wrappedItems = Some "Item"
  /\ serialize (host := referenceHost) 2 xmlSerializer basket twoItems "Basket"
     = Ok (VObj [("Items", VObj [("Item", VArr [VNum (Fin 1); VNum (Fin 2)])])])
  /\ ~ (exists payload,
          serialize (host := referenceHost) 2 xmlSerializer basket twoItems "Basket"
            = Ok payload
          /\ getProp payload (keyOf (spec_xml_wire_name wrappedItems))
             = VArr [VNum (Fin 1); VNum (Fin 2)]).
Proof.
  split; [reflexivity|]. split; [reflexivity|].
  intros (payload & Hrun & Hkey).
  vm_compute in Hrun. injection Hrun as <-. vm_compute in Hkey. discriminate Hkey.
Qed.



(** C7, the failing run: a read-only property with the dotted name [a.b] and
    a value leaves the empty object [a] in the payload, which the mapper
    without that property does not hold; with no value and a name of three
    segments the run throws.  With an undotted name the property leaves no
    trace, and [deserialize] decodes a read-only property like any other. *)
Example readOnly_dotted_property_leaves_a_trace :
  serialize (host := referenceHost) 1 jsonSerializer
    (compositeMapper "obj" [("x", readOnlyNested)]) (VObj [("x", VNum (Fin 1))]) "obj"
    = Ok (VObj [("a", VObj [])])
  /\ serialize (host := referenceHost) 1 jsonSerializer
       (compositeMapper "obj" []) (VObj [("x", VNum (Fin 1))]) "obj"
     = Ok (VObj [])
  /\ serialize (host := referenceHost) 1 jsonSerializer
       (compositeMapper "obj" [("x", withReadOnly (plainMapper "Number" "a.b.c"))])
       (VObj []) "obj"
     = Err (TypeError "Cannot read properties of undefined")
  /\ serialize (host := referenceHost) 1 jsonSerializer
       (compositeMapper "obj" [("x", withReadOnly (plainMapper "Number" "b"))])
       (VObj [("x", VNum (Fin 1))]) "obj"
     = Ok (VObj [])
  /\ deserialize (host := referenceHost) 1 jsonSerializer
       (compositeMapper "obj" [("x", readOnlyNested)])
       (VObj [("a", VObj [("b", VNum (Fin 1))])]) "obj"
     = Ok (VObj [("x", VNum (Fin 1))]).
Proof. repeat split. Qed.

(** ** Base64Url *)

(** C8. There is a non-empty byte sequence whose base64 text holds both [+]
    and [/] and which a Base64Url mapper serializes (base64, padding
    stripped, [+] to [-], [/] to [_]) to a text that it deserializes (the
    substitution undone, base64 decoded) to the same bytes. *)
Theorem base64url_round_trip :
  exists (bytes : list byte) (text : string),
    bytes <> []
    /\ hasChar "+" (base64Encode bytes) = true
    /\ hasChar "/" (base64Encode bytes) = true
    /\ serialize (host := referenceHost) 0 jsonSerializer base64UrlMapper
         (VBytes bytes) "data" = Ok (VStr text)
    /\ hasChar "+" text = false
    /\ hasChar "/" text = false
    /\ hasChar "=" text = false
    /\ deserialize (host := referenceHost) 0 jsonSerializer base64UrlMapper
         (VStr text) "data" = Ok (VBytes bytes).
Proof.
  exists [xfb; xff; xbf], "-_-_".
  repeat split; try reflexivity. discriminate.
Qed.

(** A sequence whose base64 text is padded goes round as well, the decoder
    reading the text without its padding. *)
Example base64url_round_trip_padded :
  base64Encode [xfb; xff] = "+/8="
  /\ serialize (host := referenceHost) 0 jsonSerializer base64UrlMapper
       (VBytes [xfb; xff]) "data" = Ok (VStr "-_8")
  /\ deserialize (host := referenceHost) 0 jsonSerializer base64UrlMapper
       (VStr "-_8") "data" = Ok (VBytes [xfb; xff]).
Proof. repeat split. Qed.

(** ** deserialize validates no constraint *)

Section NoValidation.

Context {host : Host}.

Lemma failValidation_is_violation (objectName : string) (value : jsval)
    (constraintName : string) (constraintValue : part) :
  isConstraintViolation (failValidation objectName value constraintName constraintValue)
  = true.
Proof. reflexivity. Qed.

Lemma clean_ok {A : Type} (a : A) : clean (Ok a).
Proof. intros e H. discriminate H. Qed.

Lemma clean_bind {A B : Type} (r : result A) (f : A -> result B) :
  clean r -> (forall a, clean (f a)) -> clean (bind r f).
Proof.
  intros Hr Hf e. destruct r as [a|e']; cbn [bind].
  - apply Hf.
  - intros [= <-]. now apply Hr.
Qed.

Lemma clean_mapM {A B : Type} (f : A -> result B) (l : list A) :
  (forall x, clean (f x)) -> clean (mapM f l).
Proof.
  intros Hf. induction l as [|x l IH]; cbn [mapM]; [apply clean_ok|].
  apply clean_bind; [apply Hf|]. intros y.
  apply clean_bind; [exact IH|]. intros ys. apply clean_ok.
Qed.

Lemma clean_foldM {S A : Type} (f : S -> A -> result S) (l : list A) (s : S) :
  (forall s x, clean (f s x)) -> clean (foldM f l s).
Proof.
  intros Hf. revert s. induction l as [|x l IH]; intros s; cbn [foldM]; [apply clean_ok|].
  apply clean_bind; [apply Hf | exact IH].
Qed.

(** One step through an outcome built from the monad's operations. *)
Ltac clean_step :=
  lazymatch goal with
  | |- clean (Ok _) => apply clean_ok
  | |- clean (Err _) => let H := fresh in intros ? H; injection H as <-; reflexivity
  | |- clean (bind _ _) => apply clean_bind; [|intros ?]
  | |- clean (mapM _ _) => apply clean_mapM; intros ?
  | |- clean (foldM _ _ _) => apply clean_foldM; intros ? ?
  | |- clean (throwIf ?b _) => unfold throwIf
  | |- clean (if ?b then _ else _) => destruct b
  | |- clean (match ?x with _ => _ end) => destruct x
  | |- clean (let (_, _) := ?x in _) => destruct x
  end.

Ltac clean_auto := cbv zeta; repeat (clean_step; cbv zeta); try assumption.

Lemma clean_selectMapper (serializer : Serializer) (mapper : Mapper) (index : string) :
  clean (selectMapper serializer mapper index).
Proof. unfold selectMapper. clean_auto. Qed.

Lemma clean_getPolymorphicMapper (serializer : Serializer) (mapper : Mapper)
    (object : jsval) (objectName mode : string) :
  clean (getPolymorphicMapper serializer mapper object objectName mode).
Proof.
  unfold getPolymorphicMapper, getPolymorphicMapperStringVersion,
    getPolymorphicMapperObjectVersion, noDiscriminatorField, objectIsAbsent.
  clean_auto; apply clean_selectMapper.
Qed.

Lemma clean_resolveModelProperties (serializer : Serializer) (mapper : Mapper)
    (objectName mode : string) :
  clean (resolveModelProperties serializer mapper objectName mode).
Proof. unfold resolveModelProperties. clean_auto. Qed.

Lemma clean_assign (instance : jsval) (key : string) (v : jsval) :
  clean (assign instance key v).
Proof. unfold assign. clean_auto. Qed.

Lemma clean_base64UrlToByteArray (str : jsval) : clean (base64UrlToByteArray str).
Proof. unfold base64UrlToByteArray. clean_auto. Qed.

Section Recursion.

Variable recur : Serializer -> Mapper -> jsval -> string -> result jsval.
Hypothesis recur_clean : forall s m v n, clean (recur s m v n).

Lemma clean_deserializeProperty (serializer : Serializer) (responseBody : jsval)
    (objectName : string) (instance : jsval) (entry : string * Mapper) :
  clean (deserializeProperty (recur serializer) serializer responseBody objectName
           instance entry).
Proof.
  unfold deserializeProperty, collectHeaders, deserializeOptional.
  clean_auto; first [apply recur_clean | apply clean_assign].
Qed.

Lemma clean_deserializeWith (serializer : Serializer) (mapper : Mapper)
    (responseBody : jsval) (objectName : string) :
  clean (deserializeWith recur serializer mapper responseBody objectName).
Proof.
  unfold deserializeWith, deserializeSequenceType, deserializeDictionaryType,
    deserializeCompositeType.
  clean_auto;
    first [ apply recur_clean
          | apply clean_base64UrlToByteArray
          | apply clean_getPolymorphicMapper
          | apply clean_resolveModelProperties
          | apply clean_deserializeProperty ].
Qed.

End Recursion.

Lemma clean_deserialize (fuel : nat) (serializer : Serializer) (mapper : Mapper)
    (responseBody : jsval) (objectName : string) :
  clean (deserialize fuel serializer mapper responseBody objectName).
Proof.
  revert serializer mapper responseBody objectName.
  induction fuel as [|fuel IH]; intros serializer mapper responseBody objectName;
    rewrite deserialize_unfold; apply clean_deserializeWith; intros s m v n.
  - intros e H. now injection H as <-.
  - apply IH.
Qed.

Lemma selectMapper_same_type (serializer : Serializer) (m1 m2 : Mapper) (index : string) :
  type m1 = type m2 ->
  sameSelection (selectMapper serializer m1 index) (selectMapper serializer m2 index).
Proof.
  intros Htype. unfold selectMapper, sameSelection.
  destruct (modelMappers serializer) as [registry|]; [|exact Htype].
  destruct (discriminators registry) as [table|]; [|reflexivity].
  destruct (assocGet index table); [reflexivity | exact Htype].
Qed.

Lemma getPolymorphicMapper_same_type (serializer : Serializer) (m1 m2 : Mapper)
    (object : jsval) (objectName mode : string) :
  type m1 = type m2 ->
  sameSelection (getPolymorphicMapper serializer m1 object objectName mode)
                (getPolymorphicMapper serializer m2 object objectName mode).
Proof.
  intros Htype.
  unfold getPolymorphicMapper, getPolymorphicMapperStringVersion,
    getPolymorphicMapperObjectVersion, hasDiscriminator, indexDiscriminator, isUberParent.
  rewrite Htype.
  destruct (polymorphicDiscriminator (type m2)) as [[f|sn cn]|]; [| |exact Htype].
  - destruct (negb (String.eqb f EmptyString)); [|exact Htype].
    destruct (isNullish object); [reflexivity|].
    destruct (isNullish (getProp object f)); [reflexivity|].
    cbn [throwIf bind]. rewrite <- Htype at 1 2.
    rewrite Htype. now apply selectMapper_same_type.
  - destruct (String.eqb mode "serialize"); cbn [bind];
      [|destruct (String.eqb mode "deserialize"); cbn [bind]; [|reflexivity]].
    + cbn [String.eqb Ascii.eqb Bool.eqb]. destruct cn as [f|]; [|exact Htype].
      destruct (isNullish object); [reflexivity|].
      destruct (isNullish (getProp object f)); [reflexivity|].
      cbn [throwIf bind]. now apply selectMapper_same_type.
    + cbn [String.eqb Ascii.eqb Bool.eqb]. destruct sn as [f|]; [|exact Htype].
      destruct (isNullish object); [reflexivity|].
      destruct (isNullish (getProp object f)); [reflexivity|].
      cbn [throwIf bind]. now apply selectMapper_same_type.
Qed.

Lemma resolveModelProperties_same_type (serializer : Serializer) (m1 m2 : Mapper)
    (objectName mode : string) (props : list (string * Mapper)) :
  type m1 = type m2 ->
  resolveModelProperties serializer m1 objectName mode = Ok props ->
  resolveModelProperties serializer m2 objectName mode = Ok props.
Proof.
  intros Htype. unfold resolveModelProperties. rewrite Htype.
  destruct (modelProperties (type m2)); [trivial|].
  destruct (nonEmpty (className (type m2))); [trivial | discriminate].
Qed.

Lemma deserializeCompositeType_ignores_constraints
    (recur : Mapper -> jsval -> string -> result jsval) (serializer : Serializer)
    (mapper : Mapper) (c : MapperConstraints) (responseBody : jsval)
    (objectName : string) (decoded : jsval) :
  deserializeCompositeType recur serializer mapper responseBody objectName = Ok decoded ->
  deserializeCompositeType recur serializer (withConstraints c mapper) responseBody
    objectName = Ok decoded.
Proof.
  unfold deserializeCompositeType.
  change (hasDiscriminator (withConstraints c mapper)) with (hasDiscriminator mapper).
  assert (sameSelection
            (if hasDiscriminator mapper
             then getPolymorphicMapper serializer mapper responseBody objectName
                    "deserialize"
             else Ok mapper)
            (if hasDiscriminator mapper
             then getPolymorphicMapper serializer (withConstraints c mapper)
                    responseBody objectName "deserialize"
             else Ok (withConstraints c mapper))) as Hsel.
  { destruct (hasDiscriminator mapper);
      [now apply getPolymorphicMapper_same_type | reflexivity]. }
  destruct (if hasDiscriminator mapper
            then getPolymorphicMapper serializer mapper responseBody objectName
                   "deserialize"
            else Ok mapper) as [r1|e1];
    destruct (if hasDiscriminator mapper
              then getPolymorphicMapper serializer (withConstraints c mapper)
                     responseBody objectName "deserialize"
              else Ok (withConstraints c mapper)) as [r2|e2];
    cbn [sameSelection] in Hsel; try contradiction; cbn [bind]; [|discriminate].
  destruct (resolveModelProperties serializer r1 objectName "deserialize") as [props|e]
    eqn:Hres; cbn [bind]; [|discriminate].
  rewrite (resolveModelProperties_same_type _ _ _ _ _ _ Hsel Hres). cbn [bind].
  trivial.
Qed.

(** A successful decode does not depend on the constraints block. *)
Lemma deserialize_ignores_constraints (fuel : nat) (serializer : Serializer)
    (mapper : Mapper) (c : MapperConstraints) (responseBody : jsval)
    (objectName : string) (decoded : jsval) :
  deserialize fuel serializer mapper responseBody objectName = Ok decoded ->
  deserialize fuel serializer (withConstraints c mapper) responseBody objectName
    = Ok decoded.
Proof.
  rewrite !deserialize_unfold. unfold deserializeWith.
  change (type (withConstraints c mapper)) with (type mapper).
  change (isConstant (withConstraints c mapper)) with (isConstant mapper).
  change (xmlIsWrapped (withConstraints c mapper)) with (xmlIsWrapped mapper).
  change (defaultValue (withConstraints c mapper)) with (defaultValue mapper).
  change (nameOr objectName (withConstraints c mapper)) with (nameOr objectName mapper).
  destruct (isNullish responseBody); [trivial|].
  repeat lazymatch goal with
         | |- bind (if ?b then _ else _) _ = _ -> _ =>
             destruct b;
             [ first
                 [ exact (fun H => H)
                 | destruct (deserializeCompositeType _ serializer mapper _ _) eqn:Hc;
                   [ rewrite (deserializeCompositeType_ignores_constraints
                                _ _ _ _ _ _ _ Hc);
                     exact (fun H => H)
                   | discriminate ] ]
             | ]
         end.
  exact (fun H => H).
Qed.

(** C9. [deserialize] never throws the error of a violated constraint,
    whatever the mapper, its constraints block and the wire value are; a
    decode that succeeds gives the same value when the mapper declares
    any constraints block, so the wire value is decoded and returned even
    when it violates a declared constraint: a Number mapper with
    InclusiveMaximum 10 decodes 200 to 200, the value on which [serialize]
    throws the InclusiveMaximum error. *)
Theorem deserialize_never_validates :
  (forall fuel serializer mapper responseBody objectName name value constraint bound,
     deserialize fuel serializer mapper responseBody objectName
     <> Err (failValidation name value constraint bound))
  /\ (forall fuel serializer mapper c responseBody objectName decoded,
        deserialize fuel serializer mapper responseBody objectName = Ok decoded ->
        deserialize fuel serializer (withConstraints c mapper) responseBody objectName
        = Ok decoded)
  /\ serialize 0 jsonSerializer boundedNumber (VNum (Fin 200)) "count"
     = Err (failValidation "count" (VNum (Fin 200)) "InclusiveMaximum"
              (Val (VNum (Fin 10))))
  /\ deserialize 0 jsonSerializer boundedNumber (VNum (Fin 200)) "count"
     = Ok (VNum (Fin 200)).
Proof.
  split; [|split; [|split; reflexivity]].
  - intros fuel serializer mapper responseBody objectName name value constraint bound H.
    pose proof (clean_deserialize fuel serializer mapper responseBody objectName _ H) as Hc.
    rewrite failValidation_is_violation in Hc. discriminate Hc.
  - intros fuel serializer mapper c responseBody objectName decoded.
    apply deserialize_ignores_constraints.
Qed.

End NoValidation.

Lemma deserialize_never_validates_witness :
  deserialize (host := referenceHost) 0 jsonSerializer
    (withConstraints smallMultipleOfSeven (plainMapper "Number" "count"))
    (VNum (Fin 200)) "count"
  = Ok (VNum (Fin 200)).
Proof.
  exact (proj1 (proj2 (deserialize_never_validates (host := referenceHost)))
           0%nat jsonSerializer (plainMapper "Number" "count") smallMultipleOfSeven
           (VNum (Fin 200)) "count" (VNum (Fin 200)) eq_refl).
Defined.

(** * Further properties *)

(** ** trimEnd and the Base64Url texts *)

Section Base64UrlTexts.

Context {host : Host}.

Lemma endsWith_cons (ch c : ascii) (t : string) :
  t <> EmptyString -> endsWith ch (String c t) = endsWith ch t.
Proof. destruct t; [contradiction | reflexivity]. Qed.

(** X1. [trimEnd(str, ch)] removes exactly the run of [ch] that ends [str]:
    the text is the result followed by copies of [ch] only, and the result
    does not end in [ch]. *)
Theorem trimEnd_removes_trailing_run (str : string) (ch : ascii) :
  (exists n, str = trimEnd str ch ++ repeatChar n ch)
  /\ endsWith ch (trimEnd str ch) = false.
Proof.
  induction str as [|c r [[n Hn] Hend]]; [split; [now exists 0%nat | reflexivity]|].
  cbn [trimEnd]. destruct (trimEnd r ch) as [|d t] eqn:Ht.
  - cbn [String.append] in Hn. destruct (Ascii.eqb_spec c ch) as [->|Hne].
    + split; [exists (S n); cbn; now rewrite <- Hn | reflexivity].
    + split; [exists n; cbn; now rewrite <- Hn|].
      unfold endsWith. cbn [lastChar]. now apply Ascii.eqb_neq.
  - split; [exists n; cbn [String.append] in Hn |- *; now rewrite <- Hn|].
    rewrite endsWith_cons by discriminate. exact Hend.
Qed.

Lemma hasChar_replaced (from to : ascii) (s : string) :
  from <> to -> hasChar from (replaceAll from to s) = false.
Proof.
  intros Hne. induction s as [|c r IH]; [reflexivity|].
  cbn [replaceAll hasChar]. rewrite IH, Bool.orb_false_r.
  destruct (Ascii.eqb_spec c from) as [->|Hc]; apply Ascii.eqb_neq; congruence.
Qed.

Lemma hasChar_replaceAll_other (c from to : ascii) (s : string) :
  c <> to -> hasChar c s = false -> hasChar c (replaceAll from to s) = false.
Proof.
  intros Hne. induction s as [|d r IH]; [reflexivity|].
  cbn [replaceAll hasChar]. intros H. apply Bool.orb_false_iff in H as [Hd Hr].
  rewrite (IH Hr), Bool.orb_false_r.
  destruct (Ascii.eqb d from); [now apply Ascii.eqb_neq | exact Hd].
Qed.

Lemma lastChar_replaceAll (from to : ascii) (s : string) :
  lastChar (replaceAll from to s) =
  option_map (fun c => if Ascii.eqb c from then to else c) (lastChar s).
Proof.
  induction s as [|c r IH]; [reflexivity|].
  cbn [replaceAll]. destruct r as [|d r']; [reflexivity|].
  cbn [replaceAll lastChar] in *. exact IH.
Qed.

Lemma endsWith_replaceAll (ch from to : ascii) (s : string) :
  ch <> from -> ch <> to -> endsWith ch (replaceAll from to s) = endsWith ch s.
Proof.
  intros Hf Ht. unfold endsWith. rewrite lastChar_replaceAll.
  destruct (lastChar s) as [c|]; [|reflexivity]. cbn [option_map].
  destruct (Ascii.eqb_spec c from) as [->|Hc]; [|reflexivity].
  transitivity false; [|symmetry]; apply Ascii.eqb_neq; congruence.
Qed.

(** X2. Whatever the base64 encoder returns, the Base64Url text of a
    Uint8Array holds no [+] and no [/] and does not end in [=]. *)
Theorem base64url_text_is_url_safe (objectName : string) (bytes : list byte) :
  exists text,
    serializeBase64UrlType objectName (VBytes bytes) = Ok (VStr text)
    /\ hasChar "+" text = false
    /\ hasChar "/" text = false
    /\ endsWith "=" text = false.
Proof.
  eexists. split; [reflexivity|]. split; [|split].
  - apply hasChar_replaceAll_other; [discriminate|].
    apply hasChar_replaced. discriminate.
  - apply hasChar_replaced. discriminate.
  - rewrite !endsWith_replaceAll by discriminate.
    apply trimEnd_removes_trailing_run.
Qed.

Lemma replaceAll_undo (from to : ascii) (s : string) :
  hasChar to s = false -> replaceAll to from (replaceAll from to s) = s.
Proof.
  induction s as [|c r IH]; [reflexivity|].
  cbn [hasChar replaceAll]. intros H. apply Bool.orb_false_iff in H as [Hc Hr].
  rewrite (IH Hr). f_equal.
  destruct (Ascii.eqb_spec c from) as [->|Hne].
  - now rewrite Ascii.eqb_refl.
  - rewrite Ascii.eqb_sym in Hc. now rewrite Hc.
Qed.

Lemma replaceAll_absent (from to : ascii) (s : string) :
  hasChar from s = false -> replaceAll from to s = s.
Proof.
  induction s as [|c r IH]; [reflexivity|].
  cbn [hasChar replaceAll]. intros H. apply Bool.orb_false_iff in H as [Hc Hr].
  rewrite (IH Hr). rewrite Ascii.eqb_sym in Hc. now rewrite Hc.
Qed.

Lemma replaceAll_swap (a b c d : ascii) (s : string) :
  a <> c -> a <> d -> b <> c ->
  replaceAll a b (replaceAll c d s) = replaceAll c d (replaceAll a b s).
Proof.
  intros Hac Had Hbc. induction s as [|x r IH]; [reflexivity|].
  cbn [replaceAll]. rewrite IH. f_equal.
  destruct (Ascii.eqb x c) eqn:E1; destruct (Ascii.eqb x a) eqn:E2.
  - apply Ascii.eqb_eq in E1, E2. congruence.
  - rewrite ?E1. apply Ascii.eqb_neq in Had. rewrite Ascii.eqb_sym in Had.
    now rewrite Had.
  - rewrite ?E2. apply Ascii.eqb_neq in Hbc. now rewrite Hbc.
  - now rewrite ?E1, ?E2.
Qed.

(** The two substitutions of [base64UrlToByteArray] undo the two of
    [bufferToBase64Url] on a text that holds neither [-] nor [_]. *)
Lemma base64url_substitutions_undo (s : string) :
  hasChar "-" s = false -> hasChar "_" s = false ->
  replaceAll "_" "/" (replaceAll "-" "+" (replaceAll "/" "_" (replaceAll "+" "-" s))) = s.
Proof.
  intros Hd Hu.
  rewrite (replaceAll_swap "-" "+" "/" "_") by discriminate.
  rewrite (replaceAll_undo "+" "-" s Hd).
  apply replaceAll_undo. exact Hu.
Qed.

Lemma hasChar_app (c : ascii) (s t : string) :
  hasChar c (s ++ t) = (hasChar c s || hasChar c t)%bool.
Proof.
  induction s as [|d r IH]; [reflexivity|].
  cbn [String.append hasChar]. now rewrite IH, Bool.orb_assoc.
Qed.

Lemma hasChar_trimEnd (c ch : ascii) (s : string) :
  hasChar c s = false -> hasChar c (trimEnd s ch) = false.
Proof.
  intros H. destruct (trimEnd_removes_trailing_run s ch) as [[n Hn] _].
  rewrite Hn, hasChar_app in H. now apply Bool.orb_false_iff in H.
Qed.

(** X3. A Uint8Array goes through [serialize] and [deserialize] of a
    Base64Url mapper unchanged whenever the base64 text of the encoder holds
    neither [-] nor [_], is not all padding, and the decoder reads it without
    its padding. *)
Theorem base64url_round_trip_for_any_codec (fuel : nat) (serializer : Serializer)
    (bytes : list byte) (objectName : string) :
  let text := encodeByteArray bytes in
  hasChar "-" text = false ->
  hasChar "_" text = false ->
  trimEnd text "=" <> EmptyString ->
  decodeString (VStr (trimEnd text "=")) = Some (VBytes bytes) ->
  exists wire,
    serialize fuel serializer base64UrlMapper (VBytes bytes) objectName = Ok (VStr wire)
    /\ deserialize fuel serializer base64UrlMapper (VStr wire) objectName
       = Ok (VBytes bytes).
Proof.
  intros text Hd Hu Hne Hdec.
  eexists. split; [rewrite serialize_unfold; reflexivity|].
  rewrite deserialize_unfold. unfold deserializeWith.
  cbn -[replaceAll trimEnd].
  fold text. set (wire := replaceAll "/" "_" (replaceAll "+" "-" (trimEnd text "="))).
  assert (wire <> EmptyString) as Hwire.
  { unfold wire. destruct (trimEnd text "="); [contradiction | discriminate]. }
  unfold base64UrlToByteArray. cbn [truthy].
  destruct (String.eqb_spec wire EmptyString) as [E|_]; [contradiction|]. cbn [negb].
  unfold wire. rewrite base64url_substitutions_undo by now apply hasChar_trimEnd.
  now rewrite Hdec.
Qed.

(** X4. The empty Uint8Array does not come back: when its base64 text is
    empty, [serialize] gives the empty text, which [deserialize] turns into
    undefined. *)
Theorem base64url_empty_array_is_lost (fuel : nat) (serializer : Serializer)
    (objectName : string) :
  encodeByteArray [] = EmptyString ->
  serialize fuel serializer base64UrlMapper (VBytes []) objectName = Ok (VStr EmptyString)
  /\ deserialize fuel serializer base64UrlMapper (VStr EmptyString) objectName
     = Ok VUndefined.
Proof.
  intros Hempty. split.
  - rewrite serialize_unfold. cbn -[replaceAll trimEnd]. now rewrite Hempty.
  - rewrite deserialize_unfold. reflexivity.
Qed.

End Base64UrlTexts.

Lemma base64url_round_trip_for_any_codec_witness :
  exists wire,
    serialize (host := referenceHost) 0 jsonSerializer base64UrlMapper
      (VBytes [xfb; xff]) "data" = Ok (VStr wire)
    /\ deserialize (host := referenceHost) 0 jsonSerializer base64UrlMapper
         (VStr wire) "data" = Ok (VBytes [xfb; xff]).
Proof.
  refine (base64url_round_trip_for_any_codec (host := referenceHost) 0 jsonSerializer
            [xfb; xff] "data" eq_refl eq_refl _ eq_refl).
  discriminate.
Defined.

Lemma base64url_empty_array_is_lost_witness :
  serialize (host := referenceHost) 0 jsonSerializer base64UrlMapper (VBytes []) "data"
    = Ok (VStr EmptyString)
  /\ deserialize (host := referenceHost) 0 jsonSerializer base64UrlMapper
       (VStr EmptyString) "data" = Ok VUndefined.
Proof.
  exact (base64url_empty_array_is_lost (host := referenceHost) 0 jsonSerializer "data"
           eq_refl).
Defined.

(** ** Sequences and dictionaries *)

(** The branch of the dispatch a type name takes, known up to case. *)
Ltac decide_types H :=
  unfold matchesType; rewrite ?H;
  repeat match goal with
         | |- context [existsb ?f (?a :: ?l)] =>
             let b := eval vm_compute in (existsb f (a :: l)) in
             change (existsb f (a :: l)) with b
         end.

Section Containers.

Context {host : Host}.

Lemma mapM_Ok_iff {A B : Type} (f : A -> result B) (l : list A) (out : list B) :
  mapM f l = Ok out <-> Forall2 (fun x y => f x = Ok y) l out.
Proof.
  revert out. induction l as [|x l IH]; intros out; cbn [mapM].
  - split; [intros [= <-]; constructor | intros H; now inversion H].
  - split.
    + destruct (f x) as [y|e] eqn:Hx; cbn [bind]; [|discriminate].
      destruct (mapM f l) as [ys|e]; cbn [bind]; [|discriminate].
      intros [= <-]. constructor; [exact Hx | now apply IH].
    + intros H. inversion H as [|? y ? ys Hx Hrest]; subst.
      rewrite Hx. cbn [bind]. apply IH in Hrest. now rewrite Hrest.
Qed.




Lemma serialize_sequence_dispatch (fuel : nat) (serializer : Serializer) (m : Mapper)
    (object : jsval) (objectName : string) :
  toLowerCase (name (type m)) = "sequence" ->
  isNullish object = false ->
  validateConstraints m object (nameOr objectName m) = Ok tt ->
  serialize fuel serializer m object objectName =
  serializeSequenceType
    (fun mp o n => match fuel with O => Err OutOfFuel | S f => serialize f serializer mp o n end)
    m object (nameOr objectName m).
Proof.
  intros Htype Hobj Hvalid. rewrite serialize_unfold. unfold serializeWith, withDefault.
  rewrite Hobj. cbn [andb]. rewrite Hobj, Hvalid.
  replace (isUndefined object) with false by (destruct object; try reflexivity; discriminate).
  replace (isNull object) with false by (destruct object; try reflexivity; discriminate).
  rewrite !Bool.andb_false_r. cbn [throwIf bind].
  decide_types Htype. reflexivity.
Qed.

(** X5. A Sequence mapper serializes an array item by item, with the element
    mapper and the name of the sequence itself: the outcome is an array of
    the same length whose items are the serialized items in order; a value
    that is no array is refused. *)
Theorem serialize_sequence_itemwise (fuel : nat) (serializer : Serializer) (m elem : Mapper)
    (object : jsval) (objectName : string) :
  toLowerCase (name (type m)) = "sequence" ->
  element (type m) = Some elem ->
  isNullish object = false ->
  validateConstraints m object (nameOr objectName m) = Ok tt ->
  match object with
  | VArr items =>
      forall r,
        serialize (S fuel) serializer m object objectName = Ok r <->
        exists out,
          r = VArr out
          /\ Forall2 (fun item o =>
                        serialize fuel serializer elem item (nameOr objectName m) = Ok o)
                     items out
  | _ =>
      serialize (S fuel) serializer m object objectName =
      Err (Error [Lit (nameOr objectName m); Lit " must be of type Array."])
  end.
Proof.
  intros Htype Helem Hobj Hvalid.
  rewrite serialize_sequence_dispatch by assumption.
  unfold serializeSequenceType. rewrite Helem.
  destruct object; try reflexivity.
  intros r. split.
  - destruct (mapM _ items) as [out|e] eqn:Hmap; cbn [bind]; [|discriminate].
    intros [= <-]. exists out. split; [reflexivity|]. now apply mapM_Ok_iff.
  - intros (out & -> & Hall). apply mapM_Ok_iff in Hall. now rewrite Hall.
Qed.



(** X7. A Sequence mapper deserializes a wire value that is no array, as
    XML parsers give for one element, like the array of that one value; a
    wire value that is no array and is falsy (0, the empty text, false) is
    returned as it is. *)
Theorem deserialize_sequence_of_one (fuel : nat) (serializer : Serializer)
    (m elem : Mapper) (responseBody : jsval) (objectName : string) :
  toLowerCase (name (type m)) = "sequence" ->
  element (type m) = Some elem ->
  isTrue (isConstant m) = false ->
  isNullish responseBody = false ->
  isArray responseBody = false ->
  deserialize (S fuel) serializer m responseBody objectName =
    if truthy responseBody
    then item <- deserialize fuel serializer elem responseBody (nameOr objectName m) ;;
         Ok (VArr [item])
    else Ok responseBody.
Proof.
  intros Htype Helem Hconst Hrb Harr.
  rewrite deserialize_unfold. unfold deserializeWith. rewrite Hrb, Hconst.
  decide_types Htype. unfold deserializeSequenceType. rewrite Helem.
  destruct (truthy responseBody); [|reflexivity].
  destruct responseBody; try discriminate Harr; cbn [mapM bind];
    destruct (deserialize fuel serializer elem _ _); reflexivity.
Qed.

End Containers.

Lemma serialize_sequence_itemwise_witness :
  serialize (host := referenceHost) 1 jsonSerializer (numberList "items")
    (VArr [VNum (Fin 1); VNum (Fin 2)]) "items"
  = Ok (VArr [VNum (Fin 1); VNum (Fin 2)])
  /\ serialize (host := referenceHost) 1 jsonSerializer (numberList "items")
       (VStr "12") "items"
     = Err (Error [Lit "items"; Lit " must be of type Array."]).
Proof.
  split.
  - apply (serialize_sequence_itemwise (host := referenceHost) 0 jsonSerializer
             (numberList "items") (plainMapper "Number" "item")
             (VArr [VNum (Fin 1); VNum (Fin 2)]) "items" eq_refl eq_refl eq_refl eq_refl).
    exists [VNum (Fin 1); VNum (Fin 2)]. split; [reflexivity|].
    repeat constructor.
  - exact (serialize_sequence_itemwise (host := referenceHost) 0 jsonSerializer
             (numberList "items") (plainMapper "Number" "item")
             (VStr "12") "items" eq_refl eq_refl eq_refl eq_refl).
Defined.


Lemma deserialize_sequence_of_one_witness :
  deserialize (host := referenceHost) 1 xmlSerializer (numberList "items")
    (VStr "7") "items"
  = Ok (VArr [VNum (Fin 7)]).
Proof.
  exact (deserialize_sequence_of_one (host := referenceHost) 0 xmlSerializer
           (numberList "items") (plainMapper "Number" "item") (VStr "7") "items"
           eq_refl eq_refl eq_refl eq_refl eq_refl).
Defined.

(** ** Defaults, constants and scalar types *)

Section Scalars.

Context {host : Host}.

Lemma nameOr_twice (objectName : string) (m : Mapper) :
  nameOr (nameOr objectName m) m = nameOr objectName m.
Proof.
  unfold nameOr. destruct (String.eqb objectName EmptyString) eqn:E; [|now rewrite E].
  destruct (String.eqb (serializedName m) EmptyString) eqn:E'; [|reflexivity].
  now apply String.eqb_eq in E'.
Qed.

(** X8. When no name is given for the object, [serialize] and [deserialize]
    behave as if called with the mapper's [serializedName]. *)
Theorem missing_objectName_is_serializedName (fuel : nat) (serializer : Serializer)
    (m : Mapper) (v : jsval) :
  serialize fuel serializer m v EmptyString
    = serialize fuel serializer m v (serializedName m)
  /\ deserialize fuel serializer m v EmptyString
     = deserialize fuel serializer m v (serializedName m).
Proof.
  rewrite !serialize_unfold, !deserialize_unfold. unfold serializeWith, deserializeWith.
  change (nameOr EmptyString m) with (serializedName m).
  replace (nameOr (serializedName m) m) with (serializedName m); [split; reflexivity|].
  symmetry. exact (nameOr_twice EmptyString m).
Qed.

(** X9. For an undefined or null value, a mapper with a default value makes
    [serialize] behave exactly as on that default value: the default is
    validated and encoded like a supplied value, and the required check never
    fails. *)
Theorem serialize_absent_is_serialize_default (fuel : nat) (serializer : Serializer)
    (m : Mapper) (object : jsval) (objectName : string) :
  isNullish object = true ->
  isNullish (defaultValue m) = false ->
  serialize fuel serializer m object objectName
    = serialize fuel serializer m (defaultValue m) objectName.
Proof.
  intros Habsent Hdefault. rewrite !serialize_unfold. unfold serializeWith, withDefault.
  rewrite Habsent, Hdefault. reflexivity.
Qed.

(** X10. A constant mapper deserializes every wire value that is neither
    null nor undefined, and that decodes, to its default value. *)
Theorem deserialize_constant_is_default (fuel : nat) (serializer : Serializer)
    (m : Mapper) (responseBody : jsval) (objectName : string) (decoded : jsval) :
  isTrue (isConstant m) = true ->
  isNullish responseBody = false ->
  deserialize fuel serializer m responseBody objectName = Ok decoded ->
  decoded = defaultValue m.
Proof.
  intros Hconst Hrb. rewrite deserialize_unfold. unfold deserializeWith.
  rewrite Hrb, Hconst.
  match goal with |- bind ?payload _ = _ -> _ => destruct payload end;
    cbn [bind]; congruence.
Qed.

Lemma enumSome_strings (v : string) (allowed : list string) :
  enumSome (VStr v) (map VStr allowed)
  = Ok (existsb (fun a => String.eqb (stringToLowerCase a) (stringToLowerCase v))
                allowed).
Proof.
  induction allowed as [|a allowed IH]; [reflexivity|].
  cbn [map enumSome bind existsb]. rewrite IH.
  destruct (String.eqb (stringToLowerCase a) (stringToLowerCase v)); reflexivity.
Qed.

(** X11. An Enum mapper whose allowed values are texts accepts a text
    exactly when its [toLowerCase()] equals the [toLowerCase()] of one of
    them, and returns it with the casing it came with; any other text is
    refused with the error that lists the allowed values. *)
Theorem serialize_enum_matches_up_to_case (fuel : nat) (serializer : Serializer)
    (m : Mapper) (allowed : list string) (v objectName : string) :
  toLowerCase (name (type m)) = "enum" ->
  allowedValues (type m) = Some (map VStr allowed) ->
  validateConstraints m (VStr v) (nameOr objectName m) = Ok tt ->
  serialize fuel serializer m (VStr v) objectName =
    if existsb (fun a => String.eqb (stringToLowerCase a) (stringToLowerCase v)) allowed
    then Ok (VStr v)
    else Err (Error [Val (VStr v); Lit " is not a valid value for ";
                     Lit (nameOr objectName m); Lit ". The valid values are: ";
                     JsonValues (map VStr allowed); Lit "."]).
Proof.
  intros Htype Hallowed Hvalid. rewrite serialize_unfold.
  unfold serializeWith, withDefault. cbn [isNullish andb isUndefined isNull].
  rewrite !Bool.andb_false_r. cbn [throwIf bind]. rewrite Hvalid. cbn [bind].
  decide_types Htype. unfold serializeEnumType. rewrite Hallowed, enumSome_strings.
  cbn [bind]. destruct (existsb _ allowed); reflexivity.
Qed.

Lemma matchesType_true (alternatives : list string) (typeName : string) :
  matchesType alternatives typeName = true ->
  exists a, In a alternatives /\ toLowerCase typeName = toLowerCase a.
Proof.
  unfold matchesType. intros H. apply existsb_exists in H as (a & Hin & Heq).
  exists a. split; [exact Hin|]. symmetry. now apply String.eqb_eq.
Qed.

(** What is left of an outcome that equals [Ok payload], case by case. *)
Ltac returns_value :=
  repeat match goal with
         | |- Ok _ = Ok _ -> _ => congruence
         | |- Err _ = Ok _ -> _ => discriminate
         | |- bind ?r _ = _ -> _ => destruct r; cbn [bind]
         | |- (if ?b then _ else _) = _ -> _ => destruct b
         | |- match ?x with _ => _ end = _ -> _ => destruct x
         end.

(** X12. For the types any, Number, String, Boolean, Object, Stream, Uuid,
    Enum and TimeSpan, [serialize] only checks: whenever it returns, it
    returns the value it was given (or the substituted default), unchanged. *)
Theorem serialize_checked_types_return_the_value (fuel : nat) (serializer : Serializer)
    (m : Mapper) (object : jsval) (objectName : string) (payload : jsval) :
  matchesType checkedOnlyTypes (name (type m)) = true ->
  serialize fuel serializer m object objectName = Ok payload ->
  payload = withDefault m object.
Proof.
  intros Htype. rewrite serialize_unfold. unfold serializeWith.
  set (o := withDefault m object). set (n := nameOr objectName m).
  repeat match goal with
         | |- bind (throwIf ?b ?e) _ = _ -> _ =>
             destruct b; cbn [throwIf bind]; [discriminate|]
         end.
  destruct (isNullish o) eqn:Ho; [congruence|].
  destruct (validateConstraints m o n); cbn [bind]; [|discriminate].
  apply matchesType_true in Htype as (alt & Hin & E).
  unfold checkedOnlyTypes in Hin. cbn [In] in Hin.
  repeat destruct Hin as [<-|Hin]; try contradiction;
    decide_types E; cbv beta iota;
    unfold serializeBasicTypes, serializeEnumType, serializeDateTypes;
    rewrite ?Ho; cbn [negb]; decide_types E; cbv beta iota; returns_value.
Qed.


Lemma matchesType_false_cons (a : string) (l : list string) (typeName : string) :
  matchesType (a :: l) typeName = false ->
  matchesType [a] typeName = false /\ matchesType l typeName = false.
Proof.
  unfold matchesType. cbn [existsb]. intros H.
  apply Bool.orb_false_iff in H as [H1 H2]. now rewrite H1, H2.
Qed.

Lemma matchesType_false_sub (sub l : list string) (typeName : string) :
  incl sub l -> matchesType l typeName = false -> matchesType sub typeName = false.
Proof.
  unfold matchesType. intros Hincl H.
  destruct (existsb _ sub) eqn:Hs; [|reflexivity].
  apply existsb_exists in Hs as (a & Hin & Ha).
  rewrite <- H. symmetry. apply existsb_exists. exists a. split; [now apply Hincl | exact Ha].
Qed.

(** X14. A mapper whose type name is none of the names the dispatch knows
    is not refused: [serialize] turns every value that is neither null nor
    undefined and passes the constraints into the empty object, and
    [deserialize] turns it into undefined (or the default of a constant
    mapper). *)
Theorem unknown_type_is_not_refused (fuel : nat) (serializer : Serializer)
    (m : Mapper) (v : jsval) (objectName : string) :
  matchesType knownTypes (name (type m)) = false ->
  isNullish v = false ->
  (validateConstraints m v (nameOr objectName m) = Ok tt ->
   serialize fuel serializer m v objectName = Ok (VObj []))
  /\ deserialize fuel serializer m v objectName
     = Ok (if isTrue (isConstant m) then defaultValue m else VUndefined).
Proof.
  intros Htype Hv.
  assert (forall sub, incl sub knownTypes -> matchesType sub (name (type m)) = false)
    as Hsub by (intros sub Hincl; now apply (matchesType_false_sub sub knownTypes)).
  split.
  - intros Hvalid. rewrite serialize_unfold. unfold serializeWith, withDefault.
    rewrite Hv. cbn [andb]. rewrite Hv, Hvalid.
    replace (isUndefined v) with false by (destruct v; try reflexivity; discriminate).
    replace (isNull v) with false by (destruct v; try reflexivity; discriminate).
    rewrite !Bool.andb_false_r. cbn [throwIf bind].
    rewrite !Hsub by (unfold knownTypes; intros x Hx; cbn [In] in *; intuition).
    reflexivity.
  - rewrite deserialize_unfold. unfold deserializeWith. rewrite Hv.
    rewrite !Hsub by (unfold knownTypes; intros x Hx; cbn [In] in *; intuition).
    reflexivity.
Qed.

(** X15. A UnixTime mapper serializes a date to the whole seconds of its
    time value, rounded down, and deserializes that number to the date of
    that second, so the round trip loses less than a second; the second 0 is
    the exception: it deserializes to undefined, not to the start of the
    epoch. *)
Theorem unixTime_round_trip_truncates (fuel : nat) (serializer : Serializer)
    (m : Mapper) (t : Z) (objectName : string) :
  toLowerCase (name (type m)) = "unixtime" ->
  isTrue (isConstant m) = false ->
  validateConstraints m (VDate (Fin t)) (nameOr objectName m) = Ok tt ->
  exists seconds,
    serialize fuel serializer m (VDate (Fin t)) objectName = Ok (VNum (Fin seconds))
    /\ 1000 * seconds <= t < 1000 * seconds + 1000
    /\ deserialize fuel serializer m (VNum (Fin seconds)) objectName
       = Ok (if seconds =? 0 then VUndefined else VDate (Fin (seconds * 1000))).
Proof.
  intros Htype Hconst Hvalid. exists (t / 1000). split; [|split].
  - rewrite serialize_unfold. unfold serializeWith, withDefault.
    cbn [isNullish andb isUndefined isNull]. rewrite !Bool.andb_false_r.
    cbn [throwIf bind]. rewrite Hvalid. cbn [bind].
    decide_types Htype. cbv beta iota. unfold serializeDateTypes. cbn [isNullish negb].
    decide_types Htype. reflexivity.
  - pose proof (Z.mul_div_le t 1000 ltac:(lia)).
    pose proof (Z.mul_succ_div_gt t 1000 ltac:(lia)). lia.
  - rewrite deserialize_unfold. unfold deserializeWith. cbn [isNullish].
    rewrite Hconst. decide_types Htype. cbv beta iota. cbn [bind].
    unfold unixTimeToDate. cbn [truthy toNumber num_mul].
    destruct (t / 1000 =? 0); reflexivity.
Qed.

End Scalars.

Lemma serialize_absent_is_serialize_default_witness :
  serialize (host := referenceHost) 0 jsonSerializer
    (withRequired (Some true) None constantVersion) VUndefined "api-version"
  = Ok (VStr "2019-01-01").
Proof.
  exact (serialize_absent_is_serialize_default (host := referenceHost) 0 jsonSerializer
           (withRequired (Some true) None constantVersion) VUndefined "api-version"
           eq_refl eq_refl).
Defined.

Lemma deserialize_constant_is_default_witness :
  VStr "2019-01-01" = defaultValue constantVersion.
Proof.
  exact (deserialize_constant_is_default (host := referenceHost) 0 jsonSerializer
           constantVersion (VStr "2020-02-02") "api-version" (VStr "2019-01-01")
           eq_refl eq_refl eq_refl).
Defined.

Lemma serialize_enum_matches_up_to_case_witness :
  serialize (host := referenceHost) 0 jsonSerializer colourMapper (VStr "red") "colour"
  = Ok (VStr "red").
Proof.
  exact (serialize_enum_matches_up_to_case (host := referenceHost) 0 jsonSerializer
           colourMapper ["Red"; "Blue"] "red" "colour" eq_refl eq_refl eq_refl).
Defined.

Lemma serialize_checked_types_return_the_value_witness :
  VStr "2019-01-01" = withDefault constantVersion VNull.
Proof.
  exact (serialize_checked_types_return_the_value (host := referenceHost) 0
           jsonSerializer constantVersion VNull "api-version" (VStr "2019-01-01")
           eq_refl eq_refl).
Defined.


Lemma unknown_type_is_not_refused_witness :
  serialize (host := referenceHost) 0 jsonSerializer (plainMapper "Integer" "count")
    (VNum (Fin 3)) "count" = Ok (VObj [])
  /\ deserialize (host := referenceHost) 0 jsonSerializer (plainMapper "Integer" "count")
       (VNum (Fin 3)) "count" = Ok VUndefined.
Proof.
  destruct (unknown_type_is_not_refused (host := referenceHost) 0 jsonSerializer
              (plainMapper "Integer" "count") (VNum (Fin 3)) "count" eq_refl eq_refl)
    as [Hser Hdes].
  split; [exact (Hser eq_refl) | exact Hdes].
Defined.

Lemma unixTime_round_trip_truncates_witness :
  exists seconds,
    serialize (host := referenceHost) 0 jsonSerializer (plainMapper "UnixTime" "at")
      (VDate (Fin 1500)) "at" = Ok (VNum (Fin seconds))
    /\ 1000 * seconds <= 1500 < 1000 * seconds + 1000
    /\ deserialize (host := referenceHost) 0 jsonSerializer (plainMapper "UnixTime" "at")
         (VNum (Fin seconds)) "at"
       = Ok (if seconds =? 0 then VUndefined else VDate (Fin (seconds * 1000))).
Proof.
  exact (unixTime_round_trip_truncates (host := referenceHost) 0 jsonSerializer
           (plainMapper "UnixTime" "at") 1500 "at" eq_refl eq_refl eq_refl).
Defined.

(** ** serializeObject *)

Section SerializeObject.

Context {host : Host}.

Lemma pushEach_plain (items out : list jsval) :
  Forall (fun v => forall r, serializeObject v = Ok r ->
                             plainValue r = true /\ serializeObject r = Ok r) items ->
  pushEach serializeObject items = Ok out ->
  forallb plainValue out = true /\ pushEach serializeObject out = Ok out.
Proof.
  intros Hall. revert out. induction Hall as [|v items Hv _ IH]; intros out; cbn [pushEach].
  - intros [= <-]. now split.
  - destruct (serializeObject v) as [y|e]; cbn [bind]; [|discriminate].
    destruct (pushEach serializeObject items) as [ys|e]; cbn [bind]; [|discriminate].
    intros [= <-]. destruct (Hv y eq_refl) as [Hp Hs]. destruct (IH ys eq_refl) as [Hps Hss].
    cbn [forallb pushEach]. now rewrite Hp, Hps, Hs, Hss.
Qed.

Lemma assignEach_plain (fields out : list (string * jsval)) :
  Forall (fun kv => forall r, serializeObject (snd kv) = Ok r ->
                              plainValue r = true /\ serializeObject r = Ok r) fields ->
  assignEach serializeObject fields = Ok out ->
  forallb (fun kv => plainValue (snd kv)) out = true
  /\ assignEach serializeObject out = Ok out.
Proof.
  intros Hall. revert out.
  induction Hall as [|[k v] fields Hv _ IH]; intros out; cbn [assignEach].
  - intros [= <-]. now split.
  - cbn [snd] in Hv. destruct (serializeObject v) as [y|e]; cbn [bind]; [|discriminate].
    destruct (assignEach serializeObject fields) as [ys|e]; cbn [bind]; [|discriminate].
    intros [= <-]. destruct (Hv y eq_refl) as [Hp Hs]. destruct (IH ys eq_refl) as [Hps Hss].
    cbn [forallb assignEach snd]. now rewrite Hp, Hps, Hs, Hss.
Qed.

(** X16. What [serializeObject] returns holds no null, no Uint8Array and no
    Date at any depth, and [serializeObject] leaves it as it is: applying the
    function twice gives what applying it once gives. *)
Theorem serializeObject_result_is_plain (v r : jsval) :
  serializeObject v = Ok r ->
  plainValue r = true /\ serializeObject r = Ok r.
Proof.
  revert r. induction v as [| |b|n|s|items IH|fields IH|bytes|t] using jsval_induction;
    intros r; cbn [serializeObject]; try (intros [= <-]; now split).
  - destruct (pushEach serializeObject items) as [out|e] eqn:Hout; cbn [bind];
      [|discriminate].
    intros [= <-]. destruct (pushEach_plain items out IH Hout) as [Hp Hs].
    cbn [plainValue serializeObject]. now rewrite Hp, Hs.
  - destruct (assignEach serializeObject fields) as [out|e] eqn:Hout; cbn [bind];
      [|discriminate].
    intros [= <-]. destruct (assignEach_plain fields out IH Hout) as [Hp Hs].
    cbn [plainValue serializeObject]. now rewrite Hp, Hs.
  - destruct t; [discriminate|]. intros [= <-]. now split.
Qed.

Lemma pushEach_fails (items : list jsval) :
  Forall failsOnInvalidDate items ->
  match pushEach serializeObject items with
  | Ok _ => existsb holdsInvalidDate items = false
  | Err e => existsb holdsInvalidDate items = true /\ e = RangeError "Invalid time value"
  end.
Proof.
  induction 1 as [|v items Hv _ IH]; cbn [pushEach existsb]; [reflexivity|].
  unfold failsOnInvalidDate in Hv. destruct (serializeObject v) as [y|e]; cbn [bind].
  - rewrite Hv. cbn [orb].
    destruct (pushEach serializeObject items); cbn [bind]; exact IH.
  - destruct Hv as [-> ->]. now split.
Qed.

Lemma assignEach_fails (fields : list (string * jsval)) :
  Forall (fun kv => failsOnInvalidDate (snd kv)) fields ->
  match assignEach serializeObject fields with
  | Ok _ => existsb (fun kv => holdsInvalidDate (snd kv)) fields = false
  | Err e => existsb (fun kv => holdsInvalidDate (snd kv)) fields = true
             /\ e = RangeError "Invalid time value"
  end.
Proof.
  induction 1 as [|[k v] fields Hv _ IH]; cbn [assignEach existsb snd]; [reflexivity|].
  unfold failsOnInvalidDate in Hv. cbn [snd] in Hv.
  destruct (serializeObject v) as [y|e]; cbn [bind].
  - rewrite Hv. cbn [orb].
    destruct (assignEach serializeObject fields); cbn [bind]; exact IH.
  - destruct Hv as [-> ->]. now split.
Qed.

(** X17. [serializeObject] throws exactly when the value holds an invalid
    Date somewhere, and then it throws the RangeError of [toISOString]; on
    every other value it returns. *)
Theorem serializeObject_throws_only_on_invalid_date (v : jsval) :
  match serializeObject v with
  | Ok _ => holdsInvalidDate v = false
  | Err e => holdsInvalidDate v = true /\ e = RangeError "Invalid time value"
  end.
Proof.
  induction v as [| |b|n|s|items IH|fields IH|bytes|t] using jsval_induction;
    cbn [serializeObject holdsInvalidDate]; try reflexivity.
  - pose proof (pushEach_fails items IH) as H.
    destruct (pushEach serializeObject items); cbn [bind]; exact H.
  - pose proof (assignEach_fails fields IH) as H.
    destruct (assignEach serializeObject fields); cbn [bind]; exact H.
  - destruct t; [now split | reflexivity].
Qed.

End SerializeObject.

Lemma serializeObject_result_is_plain_witness :
  plainValue (VObj [("when", VStr "86400000"); ("raw", VStr "+/8="); ("none", VUndefined)])
    = true
  /\ serializeObject (host := referenceHost)
       (VObj [("when", VStr "86400000"); ("raw", VStr "+/8="); ("none", VUndefined)])
     = Ok (VObj [("when", VStr "86400000"); ("raw", VStr "+/8="); ("none", VUndefined)]).
Proof.
  exact (serializeObject_result_is_plain (host := referenceHost)
           (VObj [("when", VDate (Fin 86400000)); ("raw", VBytes [xfb; xff]);
                  ("none", VNull)])
           (VObj [("when", VStr "86400000"); ("raw", VStr "+/8="); ("none", VUndefined)])
           eq_refl).
Defined.

(** ** Composite values *)

Section Composites.

Context {host : Host}.

(** X18. A composite mapper with a polymorphic discriminator refuses a value
    that does not carry the discriminator field, whether or not a registry is
    there: resolution, and with it [serializeCompositeType] and
    [deserializeCompositeType], throws the error that names the field and the
    object. *)
Theorem missing_discriminator_is_refused (serializer : Serializer) (m : Mapper)
    (object : jsval) (objectName mode field : string) :
  hasDiscriminator m = true ->
  spec_discriminator_field m mode = Some field ->
  isNullish object = false ->
  isNullish (getProp object field) = true ->
  getPolymorphicMapper serializer m object objectName mode
    = Err (noDiscriminatorField field objectName)
  /\ (mode = "serialize" ->
      forall recur,
        serializeCompositeType recur serializer m object objectName
        = Err (noDiscriminatorField field objectName))
  /\ (mode = "deserialize" ->
      forall recur,
        deserializeCompositeType recur serializer m object objectName
        = Err (noDiscriminatorField field objectName)).
Proof.
  intros Hhas Hfield Hobj Hdv.
  assert (getPolymorphicMapper serializer m object objectName mode
          = Err (noDiscriminatorField field objectName)) as Hget.
  { unfold getPolymorphicMapper. rewrite Hhas.
    unfold spec_discriminator_field in Hfield.
    destruct (polymorphicDiscriminator (type m)) as [[f|sn cn]|] eqn:Hd;
      [| |discriminate Hfield].
    - injection Hfield as ->.
      unfold getPolymorphicMapperStringVersion. now rewrite Hd, Hobj, Hdv.
    - unfold getPolymorphicMapperObjectVersion. rewrite Hd.
      destruct (String.eqb mode "serialize") eqn:Hs.
      + cbn [bind]. cbn [String.eqb Ascii.eqb Bool.eqb]. now rewrite Hfield, Hobj, Hdv.
      + destruct (String.eqb mode "deserialize") eqn:Hds; [|discriminate Hfield].
        cbn [bind]. cbn [String.eqb Ascii.eqb Bool.eqb]. now rewrite Hfield, Hobj, Hdv. }
  split; [exact Hget|]. split; intros -> recur.
  - unfold serializeCompositeType. now rewrite Hhas, Hget.
  - unfold deserializeCompositeType. now rewrite Hhas, Hget.
Qed.

(** X19. A composite mapper that holds no [modelProperties] but names a
    registered class is processed exactly like a mapper that holds the
    registered mapper's properties itself. *)
Theorem registered_class_stands_for_its_properties (serializer : Serializer)
    (registry : Registry) (byName inline registered : Mapper) (cn : string)
    (props : list (string * Mapper)) (v : jsval) (objectName : string) :
  modelProperties (type byName) = None ->
  className (type byName) = Some cn ->
  cn <> EmptyString ->
  modelMappers serializer = Some registry ->
  assocGet cn (models registry) = Some registered ->
  modelProperties (type registered) = Some props ->
  modelProperties (type inline) = Some props ->
  hasDiscriminator byName = false ->
  hasDiscriminator inline = false ->
  (forall recur,
     serializeCompositeType recur serializer byName v objectName
     = serializeCompositeType recur serializer inline v objectName)
  /\ (forall recur,
        deserializeCompositeType recur serializer byName v objectName
        = deserializeCompositeType recur serializer inline v objectName).
Proof.
  intros Hnone Hclass Hcn Hreg Hentry Hprops Hinline Hd1 Hd2.
  assert (forall mode, resolveModelProperties serializer byName objectName mode = Ok props)
    as H1.
  { intros mode. unfold resolveModelProperties. rewrite Hnone, Hclass. cbn [nonEmpty keyOf].
    destruct (String.eqb_spec cn EmptyString) as [E|_]; [contradiction|]. cbn [negb].
    now rewrite Hreg, Hentry, Hprops. }
  assert (forall mode, resolveModelProperties serializer inline objectName mode = Ok props)
    as H2.
  { intros mode. unfold resolveModelProperties. now rewrite Hinline. }
  split; intros recur.
  - unfold serializeCompositeType. rewrite Hd1, Hd2. cbn [bind]. now rewrite H1, H2.
  - unfold deserializeCompositeType. rewrite Hd1, Hd2. cbn [bind]. now rewrite H1, H2.
Qed.

Lemma foldM_ext_in {S A : Type} (f g : S -> A -> result S) (l : list A) (s : S) :
  (forall s x, In x l -> f s x = g s x) -> foldM f l s = foldM g l s.
Proof.
  revert s. induction l as [|x l IH]; intros s H; cbn [foldM]; [reflexivity|].
  rewrite (H s x (or_introl eq_refl)).
  destruct (g s x) as [s'|e]; cbn [bind]; [|reflexivity].
  apply IH. intros s0 y Hy. apply H. now right.
Qed.

Lemma getPolymorphicMapper_reads_field (serializer : Serializer) (m : Mapper)
    (o1 o2 : jsval) (objectName mode : string) :
  isNullish o1 = false ->
  isNullish o2 = false ->
  (forall field, spec_discriminator_field m mode = Some field ->
                 getProp o1 field = getProp o2 field) ->
  getPolymorphicMapper serializer m o1 objectName mode
  = getPolymorphicMapper serializer m o2 objectName mode.
Proof.
  intros H1 H2 Hfield. unfold getPolymorphicMapper.
  destruct (hasDiscriminator m); [|reflexivity].
  unfold spec_discriminator_field in Hfield.
  destruct (polymorphicDiscriminator (type m)) as [[f|sn cn]|] eqn:Hd.
  - unfold getPolymorphicMapperStringVersion.
    now rewrite Hd, H1, H2, (Hfield f eq_refl).
  - unfold getPolymorphicMapperObjectVersion. rewrite Hd.
    destruct (String.eqb mode "serialize").
    + cbn [bind]. cbn [String.eqb Ascii.eqb Bool.eqb].
      destruct cn as [f|]; [|reflexivity]. now rewrite H1, H2, (Hfield f eq_refl).
    + destruct (String.eqb mode "deserialize"); [|reflexivity].
      cbn [bind]. cbn [String.eqb Ascii.eqb Bool.eqb].
      destruct sn as [f|]; [|reflexivity]. now rewrite H1, H2, (Hfield f eq_refl).
  - unfold getPolymorphicMapperObjectVersion. rewrite Hd.
    destruct (String.eqb mode "serialize"); [reflexivity|].
    destruct (String.eqb mode "deserialize"); reflexivity.
Qed.

Lemma serialize_composite (fuel : nat) (serializer : Serializer) (m : Mapper)
    (object : jsval) (objectName : string) :
  toLowerCase (name (type m)) = "composite" ->
  constraints m = None ->
  isNullish object = false ->
  serialize (S fuel) serializer m object objectName
  = (effective <- getPolymorphicMapper serializer m object (nameOr objectName m)
                    "serialize" ;;
     modelProps <- resolveModelProperties serializer effective (nameOr objectName m)
                     "serialize" ;;
     foldM (serializeProperty (serialize fuel serializer) serializer object
              (nameOr objectName m))
           modelProps (VObj [])).
Proof.
  intros Htype Hnone Hobj. rewrite serialize_unfold.
  unfold serializeWith, withDefault, validateConstraints.
  rewrite Hobj, Hnone. cbn [andb].
  replace (isUndefined object) with false by (destruct object; try reflexivity; discriminate).
  replace (isNull object) with false by (destruct object; try reflexivity; discriminate).
  rewrite Hobj, !Bool.andb_false_r. cbn [throwIf bind].
  decide_types Htype. cbv beta iota.
  unfold serializeCompositeType, getPolymorphicMapper. rewrite Hobj. cbn [negb].
  destruct (hasDiscriminator m); reflexivity.
Qed.

(** X20. For a composite mapper without constraints, [serialize] reads of
    the value only the discriminator field, if the mapper has one, and the
    properties that the mapper chosen by that field names: two values that
    agree on these give the same outcome, so whatever else the value holds
    never reaches the payload. *)
Theorem serialize_reads_only_mapped_properties (fuel : nat) (serializer : Serializer)
    (m : Mapper) (o1 o2 : jsval) (objectName : string) :
  toLowerCase (name (type m)) = "composite" ->
  constraints m = None ->
  isNullish o1 = false ->
  isNullish o2 = false ->
  (forall field, spec_discriminator_field m "serialize" = Some field ->
                 getProp o1 field = getProp o2 field) ->
  (forall effective props key pm,
     getPolymorphicMapper serializer m o1 (nameOr objectName m) "serialize" = Ok effective ->
     resolveModelProperties serializer effective (nameOr objectName m) "serialize"
       = Ok props ->
     In (key, pm) props ->
     getProp o1 key = getProp o2 key) ->
  serialize (S fuel) serializer m o1 objectName
  = serialize (S fuel) serializer m o2 objectName.
Proof.
  intros Htype Hnone H1 H2 Hfield Hagree.
  rewrite !serialize_composite by assumption.
  rewrite <- (getPolymorphicMapper_reads_field serializer m o1 o2 _ _ H1 H2 Hfield).
  destruct (getPolymorphicMapper serializer m o1 (nameOr objectName m) "serialize")
    as [effective|e] eqn:Hget; cbn [bind]; [|reflexivity].
  destruct (resolveModelProperties serializer effective (nameOr objectName m) "serialize")
    as [props|e] eqn:Hres; cbn [bind]; [|reflexivity].
  apply foldM_ext_in. intros payload [key pm] Hin.
  unfold serializeProperty. now rewrite (Hagree effective props key pm eq_refl Hres Hin).
Qed.

(** The walk stops at a level that is falsy. *)
Lemma walkPath_stops_at_falsy (rb : jsval) (before after : list string) :
  truthy (walkPath rb before) = false ->
  walkPath rb (before ++ after) = walkPath rb before.
Proof.
  revert rb. induction before as [|item rest IH]; intros rb H.
  - cbn [app walkPath] in *. destruct after; cbn [walkPath]; [reflexivity|].
    now rewrite H.
  - cbn [app walkPath] in *. destruct (negb (truthy rb)); [reflexivity | now apply IH].
Qed.

(** X21. When the walk down a dotted name meets a level that is falsy but
    not undefined (null, 0, the empty text, false), [deserialize] takes that
    level itself for the value of the property and decodes it. *)
Theorem deserialize_decodes_a_falsy_level (fuel : nat) (serializer : Serializer)
    (sn key : string) (pm : Mapper) (objectName : string) (responseBody : jsval)
    (before after : list string) :
  isXML serializer = false ->
  splitSerializeName (serializedName pm) = (before ++ after)%list ->
  nonEmpty (headerCollectionPrefix pm) = false ->
  serializedName pm <> EmptyString ->
  truthy responseBody = true ->
  truthy (walkPath responseBody before) = false ->
  isUndefined (walkPath responseBody before) = false ->
  deserialize (S fuel) serializer (compositeMapper sn [(key, pm)]) responseBody objectName
  = (v <- deserialize fuel serializer pm (walkPath responseBody before)
            (propertyObjectNameOf (nameOr objectName (compositeMapper sn [(key, pm)])) pm) ;;
     Ok (VObj [(key, v)])).
Proof.
  intros Hxml Hsplit Hhdr Hname Htruthy Hfalsy Hdefined.
  rewrite deserialize_compositeMapper
    by (destruct responseBody; try reflexivity; discriminate Htruthy).
  rewrite Htruthy. cbn [foldM]. rewrite deserializeProperty_walks by assumption.
  cbv zeta. rewrite Hsplit, (walkPath_stops_at_falsy _ _ _ Hfalsy), Hdefined.
  destruct (deserialize fuel serializer pm _ _); reflexivity.
Qed.


Lemma serializeProperty_in_xml (recur : Mapper -> jsval -> string -> result jsval)
    (serializer : Serializer) (object : jsval) (objectName : string)
    (fields : list (string * jsval)) (key : string) (pm : Mapper) (sv : jsval)
    (wireKey : string) :
  isXML serializer = true ->
  isTrue (readOnly pm) = false ->
  isTrue (xmlIsAttribute pm) = false ->
  recur pm (getProp object key) (propertyObjectNameOf objectName pm) = Ok sv ->
  isUndefined sv = false ->
  (if isTrue (xmlIsWrapped pm) then xmlName pm
   else if nonEmpty (xmlElementName pm) then xmlElementName pm else xmlName pm)
  = Some wireKey ->
  serializeProperty recur serializer object objectName (VObj fields) (key, pm)
  = Ok (VObj (assocSet wireKey
                (if isTrue (xmlIsWrapped pm)
                 then VObj [(keyOf (xmlElementName pm), sv)] else sv)
                fields)).
Proof.
  intros Hxml Hro Hattr Hrec Hsv Hkey.
  unfold serializeProperty, locateProperty. rewrite Hxml.
  destruct (isTrue (xmlIsWrapped pm)) eqn:Hw; rewrite Hkey; cbn [bind];
    rewrite Hro, Hrec; cbn [bind]; rewrite Hsv; cbn [negb];
    unfold placeProperty; now rewrite Hattr, Hw.
Qed.

(** X23. In XML mode [deserialize] finds a property where [serialize] put
    it: for a property that is no attribute, wrapped or not, the loop of
    [deserializeCompositeType] run on the payload that the loop of
    [serializeCompositeType] built hands the serialized value of the
    property to its decoder. *)
Theorem xml_property_is_read_where_written
    (encode : Mapper -> jsval -> string -> result jsval) (serializer : Serializer)
    (object : jsval) (objectName : string) (fields : list (string * jsval))
    (key : string) (pm : Mapper) (sv : jsval) (wireKey : string) :
  isXML serializer = true ->
  isTrue (readOnly pm) = false ->
  isTrue (xmlIsAttribute pm) = false ->
  nonEmpty (headerCollectionPrefix pm) = false ->
  encode pm (getProp object key) (propertyObjectNameOf objectName pm) = Ok sv ->
  isUndefined sv = false ->
  (if isTrue (xmlIsWrapped pm) then xmlName pm
   else if nonEmpty (xmlElementName pm) then xmlElementName pm else xmlName pm)
  = Some wireKey ->
  exists payload,
    serializeProperty encode serializer object objectName (VObj fields) (key, pm)
      = Ok payload
    /\ forall decode name instance,
         deserializeProperty decode serializer payload name instance (key, pm)
         = (v <- decode pm sv (propertyObjectNameOf name pm) ;; assign instance key v).
Proof.
  intros Hxml Hro Hattr Hhdr Hrec Hsv Hkey.
  eexists. split;
    [exact (serializeProperty_in_xml _ _ _ _ _ _ _ sv wireKey Hxml Hro Hattr Hrec Hsv Hkey)|].
  intros decode name' instance.
  unfold deserializeProperty. rewrite Hhdr, Hxml, Hattr. cbn [andb]. cbv zeta.
  destruct (isTrue (xmlIsWrapped pm)).
  - rewrite Hkey. cbn [keyOf getProp]. rewrite assocGet_assocSet. cbn [truthy getProp].
    rewrite assocGet_single, Hsv. reflexivity.
  - rewrite Hkey. cbn [keyOf getProp]. now rewrite assocGet_assocSet.
Qed.




End Composites.

Lemma missing_discriminator_is_refused_witness :
  serializeCompositeType (host := referenceHost)
    (serialize (host := referenceHost) 0 jsonSerializer) jsonSerializer animalMapper
    (VObj [("name", VStr "Rex")]) "pet"
  = Err (noDiscriminatorField "kind" "pet").
Proof.
  exact (proj1 (proj2 (missing_discriminator_is_refused (host := referenceHost)
                         jsonSerializer animalMapper (VObj [("name", VStr "Rex")])
                         "pet" "serialize" "kind" eq_refl eq_refl eq_refl eq_refl))
           eq_refl (serialize (host := referenceHost) 0 jsonSerializer)).
Defined.

Lemma registered_class_stands_for_its_properties_witness :
  serializeCompositeType (host := referenceHost)
    (serialize (host := referenceHost) 0 zooSerializer) zooSerializer
    (compositeByName "Dog") rex "pet"
  = serializeCompositeType (host := referenceHost)
      (serialize (host := referenceHost) 0 zooSerializer) zooSerializer
      (compositeMapper "Dog" dogProperties) rex "pet".
Proof.
  refine (proj1 (registered_class_stands_for_its_properties (host := referenceHost)
                   zooSerializer zooRegistry (compositeByName "Dog")
                   (compositeMapper "Dog" dogProperties) dogMapper "Dog" dogProperties
                   rex "pet" eq_refl eq_refl _ eq_refl eq_refl eq_refl eq_refl eq_refl
                   eq_refl)
            (serialize (host := referenceHost) 0 zooSerializer)).
  discriminate.
Defined.

Lemma serialize_reads_only_mapped_properties_witness :
  serialize (host := referenceHost) 1 zooSerializer animalMapper collaredRex "pet"
  = serialize (host := referenceHost) 1 zooSerializer animalMapper rex "pet".
Proof.
  apply (serialize_reads_only_mapped_properties (host := referenceHost) 0 zooSerializer
           animalMapper collaredRex rex "pet" eq_refl eq_refl eq_refl eq_refl).
  - intros field [= <-]. reflexivity.
  - intros effective props key pm [= <-] [= <-] Hin.
    cbn [dogMapper polymorphicComposite animalProperties app In] in Hin.
    repeat destruct Hin as [[= <- <-]|Hin]; try reflexivity. destruct Hin.
Defined.

Lemma deserialize_decodes_a_falsy_level_witness :
  deserialize (host := referenceHost) 1 jsonSerializer
    (compositeMapper "obj" [("x", plainMapper "Number" "a.b")])
    (VObj [("a", VNum (Fin 0))]) "obj"
  = Ok (VObj [("x", VNum (Fin 0))]).
Proof.
  refine (deserialize_decodes_a_falsy_level (host := referenceHost) 0 jsonSerializer
            "obj" "x" (plainMapper "Number" "a.b") "obj" (VObj [("a", VNum (Fin 0))])
            ["a"] ["b"] eq_refl eq_refl eq_refl _ eq_refl eq_refl eq_refl).
  discriminate.
Defined.


Lemma xml_property_is_read_where_written_witness :
  exists payload,
    serializeProperty (serialize (host := referenceHost) 1 xmlSerializer) xmlSerializer
      twoItems "Basket" (VObj []) ("items", wrappedItems) = Ok payload
    /\ deserializeProperty (deserialize (host := referenceHost) 1 xmlSerializer)
         xmlSerializer payload "Basket" (VObj []) ("items", wrappedItems)
       = Ok (VObj [("items", VArr [VNum (Fin 1); VNum (Fin 2)])]).
Proof.
  destruct (xml_property_is_read_where_written
              (serialize (host := referenceHost) 1 xmlSerializer) xmlSerializer
              twoItems "Basket" [] "items" wrappedItems
              (VArr [VNum (Fin 1); VNum (Fin 2)]) "Items"
              eq_refl eq_refl eq_refl eq_refl eq_refl eq_refl eq_refl)
    as (payload & Hwritten & Hread).
  exists payload. split; [exact Hwritten|].
  rewrite Hread. reflexivity.
Defined.


(** * UniqueItems *)

Section UniqueItems.

Context {host : Host}.

(** Items of one primitive kind, told apart by [===] exactly when they
    differ. *)
Variable A : Type.
Variable item : A -> jsval.
Hypothesis item_eq : forall i j a b, strictEqAt i j (item a) (item b) = true <-> a = b.

Lemma item_in_or_not (a : A) (l : list A) : In a l \/ ~ In a l.
Proof.
  induction l as [|x l [IH|IH]]; [now right | left; now right |].
  destruct (strictEqAt 0 0 (item x) (item a)) eqn:E.
  - apply item_eq in E. left. now left.
  - right. intros [->|Hin]; [|exact (IH Hin)].
    assert (strictEqAt 0 0 (item a) (item a) = true) as Hrefl by now apply item_eq.
    congruence.
Qed.

Lemma indexOf_absent (l : list A) (j i : nat) (a : A) :
  ~ In a l -> indexOfFrom j (map item l) i (item a) = None.
Proof.
  revert j. induction l as [|x l IH]; intros j Hnot; cbn [map indexOfFrom]; [reflexivity|].
  destruct (strictEqAt j i (item x) (item a)) eqn:E.
  - apply item_eq in E. subst x. exfalso. apply Hnot. now left.
  - apply IH. intros Hin. apply Hnot. now right.
Qed.

Lemma indexOf_first (pre post : list A) (j i : nat) (a : A) :
  ~ In a pre ->
  indexOfFrom j (map item (pre ++ a :: post)) i (item a) = Some (j + length pre)%nat.
Proof.
  revert j. induction pre as [|x pre IH]; intros j Hnot; cbn [app map indexOfFrom length].
  - replace (strictEqAt j i (item a) (item a)) with true
      by (symmetry; now apply item_eq).
    f_equal. lia.
  - destruct (strictEqAt j i (item x) (item a)) eqn:E.
    + apply item_eq in E. subst x. exfalso. apply Hnot. now left.
    + rewrite IH by (intros Hin; apply Hnot; now right). f_equal. lia.
Qed.

Lemma indexOf_earlier (pre post : list A) (j i : nat) (a : A) :
  In a pre ->
  exists k, indexOfFrom j (map item (pre ++ post)) i (item a) = Some k
            /\ (k < j + length pre)%nat.
Proof.
  revert j. induction pre as [|x pre IH]; intros j Hin; [destruct Hin|].
  cbn [app map indexOfFrom length].
  destruct (strictEqAt j i (item x) (item a)) eqn:E.
  - exists j. split; [reflexivity | lia].
  - destruct Hin as [->|Hin].
    + assert (strictEqAt j i (item a) (item a) = true) as Hrefl by now apply item_eq.
      congruence.
    + destruct (IH (S j) Hin) as (k & Hk & Hlt). exists k. split; [exact Hk | lia].
Qed.

Lemma someRepeatedFrom_NoDup (pre rest : list A) :
  someRepeatedFrom (length pre) (map item rest) (map item (pre ++ rest)) = false
  <-> NoDup rest /\ (forall a, In a rest -> ~ In a pre).
Proof.
  revert pre. induction rest as [|a rest IH]; intros pre; cbn [map someRepeatedFrom].
  - split; [intros _; split; [constructor | intros a []] | reflexivity].
  - destruct (item_in_or_not a pre) as [Hin|Hnot].
    + destruct (indexOf_earlier pre (a :: rest) 0 (length pre) a Hin) as (k & Hk & Hlt).
      rewrite Hk. replace (Nat.eqb k (length pre)) with false
        by (symmetry; apply Nat.eqb_neq; lia).
      split; [discriminate|]. intros [_ Hfresh]. exfalso.
      apply (Hfresh a); [now left | exact Hin].
    + rewrite (indexOf_first pre rest 0 (length pre) a Hnot). cbn [Nat.add].
      rewrite Nat.eqb_refl.
      specialize (IH (pre ++ [a])%list).
      rewrite length_app in IH. cbn [length] in IH.
      replace (length pre + 1)%nat with (S (length pre)) in IH by lia.
      rewrite <- app_assoc in IH. cbn [app] in IH. rewrite IH. clear IH.
      split.
      * intros [Hnd Hfresh]. split.
        -- constructor; [|exact Hnd]. intros Hin. apply (Hfresh a Hin).
           apply in_or_app. right. now left.
        -- intros b [<-|Hb]; [exact Hnot|]. intros Hpre. apply (Hfresh b Hb).
           apply in_or_app. now left.
      * intros [Hnd Hfresh]. inversion Hnd as [|? ? Ha Hnd']; subst. split; [exact Hnd'|].
        intros b Hb Hin. apply in_app_or in Hin as [Hin|[<-|[]]].
        -- apply (Hfresh b); [now right | exact Hin].
        -- exact (Ha Hb).
Qed.

Lemma someRepeated_NoDup (l : list A) :
  someRepeated (map item l) = false <-> NoDup l.
Proof.
  unfold someRepeated. rewrite (someRepeatedFrom_NoDup [] l).
  split; [now intros [H _] | intros H; split; [exact H | intros a _ []]].
Qed.

End UniqueItems.

Section UniqueItemsConstraint.

Context {host : Host}.

Lemma strictEqAt_texts (i j : nat) (a b : string) :
  strictEqAt i j (VStr a) (VStr b) = true <-> a = b.
Proof. cbn [strictEqAt]. apply String.eqb_eq. Qed.

Lemma strictEqAt_numbers (i j : nat) (a b : Z) :
  strictEqAt i j (VNum (Fin a)) (VNum (Fin b)) = true <-> a = b.
Proof. cbn [strictEqAt num_eq]. apply Z.eqb_eq. Qed.

Lemma validate_uniqueItemsOnly (m : Mapper) (items : list jsval) (objectName : string) :
  constraints m = Some uniqueItemsOnly ->
  validateConstraints m (VArr items) objectName = Ok tt <-> someRepeated items = false.
Proof.
  intros Hc. unfold validateConstraints. rewrite Hc.
  cbn [isNullish negb uniqueItemsOnly ExclusiveMaximum ExclusiveMinimum InclusiveMaximum
       InclusiveMinimum MaxItems MaxLength MinItems MinLength MultipleOf Pattern UniqueItems
       checkBound bind isTrue].
  destruct (someRepeated items); cbn [throwIf]; split; congruence.
Qed.

(** X25. With UniqueItems as the only constraint, an array of texts or of
    finite numbers passes [validateConstraints] exactly when no item occurs
    in it twice. *)
Theorem uniqueItems_accepts_exactly_distinct_items (m : Mapper) (objectName : string) :
  constraints m = Some uniqueItemsOnly ->
  (forall l, validateConstraints m (texts l) objectName = Ok tt <-> NoDup l)
  /\ (forall l, validateConstraints m (numbers l) objectName = Ok tt <-> NoDup l).
Proof.
  intros Hc. split; intros l; unfold texts, numbers;
    rewrite (validate_uniqueItemsOnly m _ objectName Hc).
  - apply (someRepeated_NoDup string VStr strictEqAt_texts).
  - apply (someRepeated_NoDup Z (fun z => VNum (Fin z)) strictEqAt_numbers).
Qed.

Lemma indexOf_NaN (ar : list jsval) (j i : nat) :
  indexOfFrom j ar i (VNum NaN) = None.
Proof.
  revert j. induction ar as [|x ar IH]; intros j; cbn [indexOfFrom]; [reflexivity|].
  replace (strictEqAt j i x (VNum NaN)) with false; [apply IH|].
  destruct x as [| | |[|z]| | | | |]; reflexivity.
Qed.

Lemma someRepeatedFrom_NaN (rest ar : list jsval) (i : nat) :
  In (VNum NaN) rest -> someRepeatedFrom i rest ar = true.
Proof.
  revert i. induction rest as [|x rest IH]; intros i Hin; [destruct Hin|].
  cbn [someRepeatedFrom]. destruct Hin as [->|Hin].
  - now rewrite indexOf_NaN.
  - destruct (indexOfFrom 0 ar i x) as [k|]; [|reflexivity].
    destruct (Nat.eqb k i); [now apply IH | reflexivity].
Qed.

(** X26. An array that holds NaN never passes a mapper whose constraints
    ask for UniqueItems, even when nothing in it occurs twice: [indexOf]
    does not find NaN. *)
Theorem uniqueItems_refuses_NaN (m : Mapper) (c : MapperConstraints)
    (items : list jsval) (objectName : string) :
  constraints m = Some c ->
  isTrue (UniqueItems c) = true ->
  In (VNum NaN) items ->
  exists e, validateConstraints m (VArr items) objectName = Err e.
Proof.
  intros Hc Hunique Hin. unfold validateConstraints. rewrite Hc.
  cbn [isNullish negb]. rewrite Hunique.
  unfold someRepeated. rewrite (someRepeatedFrom_NaN items items 0 Hin).
  cbn [throwIf].
  repeat match goal with
         | |- exists e, bind ?r _ = Err e =>
             destruct r; cbn [bind]; [|eexists; reflexivity]
         end.
  eexists. reflexivity.
Qed.

End UniqueItemsConstraint.

Lemma uniqueItems_accepts_exactly_distinct_items_witness :
  validateConstraints (host := referenceHost)
    (withConstraints uniqueItemsOnly (numberList "ids")) (texts ["a"; "b"]) "ids" = Ok tt
  /\ validateConstraints (host := referenceHost)
       (withConstraints uniqueItemsOnly (numberList "ids")) (numbers [1; 2; 1]) "ids"
     <> Ok tt.
Proof.
  destruct (uniqueItems_accepts_exactly_distinct_items (host := referenceHost)
              (withConstraints uniqueItemsOnly (numberList "ids")) "ids" eq_refl)
    as [Htexts Hnumbers].
  split.
  - apply Htexts. repeat constructor; cbn [In]; intuition discriminate.
  - intros Hok. apply Hnumbers in Hok. inversion Hok as [|? ? Hnot _]; subst.
    apply Hnot. right. now left.
Defined.

Lemma uniqueItems_refuses_NaN_witness :
  exists e,
    validateConstraints (host := referenceHost)
      (withConstraints uniqueItemsOnly (numberList "ids")) (VArr [VNum NaN]) "ids" = Err e.
Proof.
  apply (uniqueItems_refuses_NaN (host := referenceHost)
           (withConstraints uniqueItemsOnly (numberList "ids")) uniqueItemsOnly
           [VNum NaN] "ids" eq_refl eq_refl).
  now left.
Defined.

(** * Serialized names *)

Section SerializedNames.

Lemma append_assoc (a b c : string) : ((a ++ b) ++ c = a ++ b ++ c)%string.
Proof. induction a as [|x a IH]; cbn [String.append]; [reflexivity | now rewrite IH]. Qed.

Lemma splitOn_undotted (a : string) :
  hasChar "." a = false -> splitOn "." a = [a].
Proof.
  induction a as [|c a IH]; cbn [hasChar splitOn]; [reflexivity|].
  intros H. apply Bool.orb_false_iff in H as [Hc Ha].
  rewrite Ascii.eqb_sym, Hc, (IH Ha). reflexivity.
Qed.

Lemma splitOn_first (a rest : string) :
  hasChar "." a = false ->
  splitOn "." (a ++ String "." rest) = a :: splitOn "." rest.
Proof.
  induction a as [|c a IH]; cbn [hasChar splitOn String.append]; [reflexivity|].
  intros H. apply Bool.orb_false_iff in H as [Hc Ha].
  rewrite Ascii.eqb_sym, Hc, (IH Ha). reflexivity.
Qed.

Lemma splitLoop_glues (subwords : list string) (partialclass : string)
    (classes : list string) :
  splitLoop subwords partialclass classes
  = (classes ++ match splitLoop subwords EmptyString [] with
                | h :: t => (partialclass ++ h)%string :: t
                | [] => []
                end)%list.
Proof.
  revert partialclass classes.
  induction subwords as [|item rest IH]; intros partialclass classes; cbn [splitLoop].
  - now rewrite app_nil_r.
  - destruct (endsWith backslash item).
    + rewrite (IH (partialclass ++ dropLastChar item ++ ".")%string classes).
      rewrite (IH (EmptyString ++ dropLastChar item ++ ".")%string []).
      cbn [String.append app].
      destruct (splitLoop rest EmptyString []); [reflexivity|].
      now rewrite !append_assoc.
    + rewrite (IH EmptyString (classes ++ [(partialclass ++ item)%string])%list).
      rewrite (IH EmptyString ([] ++ [(EmptyString ++ item)%string])%list).
      cbn [String.append app]. rewrite <- app_assoc. reflexivity.
Qed.

(** X29. How a serialized name splits, read from its first piece, the text
    before the first dot: a piece that ends in a backslash loses the
    backslash and is glued, with the dot, to the front of the first segment
    of what follows; any other piece is a segment of its own.  A name whose
    last piece ends in a backslash loses that piece: a name of one such piece
    has no segment at all. *)
Theorem splitSerializeName_by_first_piece (a rest : string) :
  hasChar "." a = false ->
  splitSerializeName a = (if endsWith backslash a then [] else [a])
  /\ splitSerializeName (a ++ String "." rest)
     = if endsWith backslash a
       then match splitSerializeName rest with
            | h :: t => (dropLastChar a ++ String "." h)%string :: t
            | [] => []
            end
       else a :: splitSerializeName rest.
Proof.
  intros Ha. unfold splitSerializeName. split.
  - rewrite (splitOn_undotted a Ha). cbn [splitLoop].
    destruct (endsWith backslash a); reflexivity.
  - rewrite (splitOn_first a rest Ha). cbn [splitLoop].
    destruct (endsWith backslash a).
    + rewrite splitLoop_glues. cbn [String.append app].
      destruct (splitLoop (splitOn "." rest) EmptyString []); [reflexivity|].
      now rewrite append_assoc.
    + rewrite splitLoop_glues. cbn [String.append app].
      destruct (splitLoop (splitOn "." rest) EmptyString []); reflexivity.
Qed.

End SerializedNames.

Lemma splitSerializeName_by_first_piece_witness :
  splitSerializeName (String "a" (String backslash EmptyString)) = []
  /\ splitSerializeName (String "a" (String backslash ".b.c")) = ["a.b"; "c"].
Proof.
  exact (splitSerializeName_by_first_piece (String "a" (String backslash EmptyString))
           "b.c" eq_refl).
Defined.

(** * strEnum *)

Section StrEnum.




End StrEnum.

(** * EnvironmentCredential *)

Section CredentialFacts.

Variables TokenResult RequestOptionsBase : Type.
Variable clientSecretGetToken :
  string -> string -> string -> list string -> option RequestOptionsBase -> TokenResult.
Variable unavailable : string -> TokenResult.

(** X28. Under Node.js the constructor of [EnvironmentCredential] never
    throws, and [getToken] of the instance asks the client secret credential
    exactly when the three variables AZURE_TENANT_ID, AZURE_CLIENT_ID and
    AZURE_CLIENT_SECRET are all set to texts that are not empty, handing it
    these three texts; if one is missing or empty the answer is
    [unavailable], never an error. *)
Theorem getToken_needs_all_three_variables (env : string -> option string)
    (tenantId clientId clientSecret : option string) (scopes : list string)
    (requestOptions : option RequestOptionsBase) :
  env "AZURE_TENANT_ID" = tenantId ->
  env "AZURE_CLIENT_ID" = clientId ->
  env "AZURE_CLIENT_SECRET" = clientSecret ->
  exists credential,
    newEnvironmentCredential true env = inr credential
    /\ getToken TokenResult RequestOptionsBase clientSecretGetToken unavailable
         credential scopes requestOptions
       = match tenantId, clientId, clientSecret with
         | Some t, Some c, Some s =>
             if (String.eqb t EmptyString || String.eqb c EmptyString
                 || String.eqb s EmptyString)%bool
             then unavailable noClientSecret
             else clientSecretGetToken t c s scopes requestOptions
         | _, _, _ => unavailable noClientSecret
         end.
Proof.
  intros <- <- <-. unfold newEnvironmentCredential, isSet, nonEmpty. cbn [negb].
  destruct (env "AZURE_TENANT_ID") as [t|];
    [destruct (String.eqb t EmptyString)|]; cbn [negb andb orb];
    (destruct (env "AZURE_CLIENT_ID") as [c|];
     [destruct (String.eqb c EmptyString)|]); cbn [negb andb orb];
    (destruct (env "AZURE_CLIENT_SECRET") as [s|];
     [destruct (String.eqb s EmptyString)|]); cbn [negb andb orb];
    eexists; (split; [reflexivity|]); reflexivity.
Qed.

End CredentialFacts.

Lemma getToken_needs_all_three_variables_witness :
  exists credential,
    newEnvironmentCredential true
      (environmentOf [("AZURE_TENANT_ID", "t"); ("AZURE_CLIENT_ID", "c");
                      ("AZURE_CLIENT_SECRET", "s")]) = inr credential
    /\ getToken (string * string * string) unit (fun t c s _ _ => (t, c, s))
         (fun reason => (reason, EmptyString, EmptyString)) credential ["scope"] None
       = ("t", "c", "s").
Proof.
  exact (getToken_needs_all_three_variables (string * string * string) unit
           (fun t c s _ _ => (t, c, s)) (fun reason => (reason, EmptyString, EmptyString))
           (environmentOf [("AZURE_TENANT_ID", "t"); ("AZURE_CLIENT_ID", "c");
                           ("AZURE_CLIENT_SECRET", "s")])
           (Some "t") (Some "c") (Some "s") ["scope"] None eq_refl eq_refl eq_refl).
Defined.

(** * Round trip of the checked types *)

Section CheckedRoundTrip.

Context {host : Host}.

Lemma checked_type_is_no_sequence (typeName : string) :
  matchesType checkedOnlyTypes typeName = true ->
  String.eqb typeName "Sequence" = false.
Proof.
  intros Htype. apply matchesType_true in Htype as (alt & Hin & E).
  destruct (String.eqb_spec typeName "Sequence") as [->|]; [|reflexivity].
  unfold checkedOnlyTypes in Hin. cbn [In] in Hin.
  repeat destruct Hin as [<-|Hin]; try contradiction; vm_compute in E; discriminate.
Qed.

(** X30. For the types any, Number, String, Boolean, Object, Stream, Uuid,
    Enum and TimeSpan, whatever [serialize] returns, [deserialize] with the
    same mapper returns unchanged, unless the mapper is constant: a value
    that was accepted on the way out reads back as itself. *)
Theorem checked_types_round_trip (fuel fuel' : nat) (serializer serializer' : Serializer)
    (m : Mapper) (object : jsval) (objectName objectName' : string) (payload : jsval) :
  matchesType checkedOnlyTypes (name (type m)) = true ->
  isTrue (isConstant m) = false ->
  serialize fuel serializer m object objectName = Ok payload ->
  deserialize fuel' serializer' m payload objectName' = Ok payload.
Proof.
  intros Htype Hconst.
  pose proof (checked_type_is_no_sequence _ Htype) as Hseq.
  rewrite serialize_unfold, deserialize_unfold. unfold serializeWith, deserializeWith.
  rewrite Hseq, Hconst, Bool.andb_false_r. cbn [andb].
  set (o := withDefault m object). set (n := nameOr objectName m).
  repeat match goal with
         | |- bind (throwIf ?b ?e) _ = _ -> _ =>
             destruct b; cbn [throwIf bind]; [discriminate|]
         end.
  destruct (isNullish o) eqn:Ho; [intros [= <-]; now rewrite Ho|].
  destruct (validateConstraints m o n); cbn [bind]; [|discriminate].
  apply matchesType_true in Htype as (alt & Hin & E).
  unfold checkedOnlyTypes in Hin. cbn [In] in Hin.
  repeat destruct Hin as [<-|Hin]; try contradiction;
    decide_types E; cbv beta iota;
    unfold serializeBasicTypes, serializeEnumType, serializeDateTypes;
    rewrite ?Ho; cbn [negb]; decide_types E; cbv beta iota;
    repeat match goal with
           | |- Ok _ = Ok _ -> _ =>
               intros [= <-]; rewrite ?Ho; cbn [isNullish parseFloat isNaN bind];
               try reflexivity;
               try match goal with |- context [isNaN ?x] => now destruct (isNaN x) end
           | |- Err _ = Ok _ -> _ => discriminate
           | |- bind ?r _ = _ -> _ => destruct r; cbn [bind]
           | |- (if ?b then _ else _) = _ -> _ => destruct b
           | |- match ?x with _ => _ end = _ -> _ => destruct x
           end.
Qed.

End CheckedRoundTrip.

Lemma checked_types_round_trip_witness :
  deserialize (host := referenceHost) 0 xmlSerializer (plainMapper "Number" "n")
    (VNum (Fin 7)) "n"
  = Ok (VNum (Fin 7)).
Proof.
  exact (checked_types_round_trip (host := referenceHost) 0 0 jsonSerializer xmlSerializer
           (plainMapper "Number" "n") (VNum (Fin 7)) "n" "n" (VNum (Fin 7))
           eq_refl eq_refl eq_refl).
Defined.
